(** * Backend synchronisation tasks of nodeconductor.structure

    A shallow embedding of [nodeconductor/structure/tasks.py]: the
    database tables are lists of rows, a task is a computation in a
    state-and-exception monad over the world (tables, log, task queue),
    and the Celery worker is a function that runs one queued job and
    enqueues the matching callback. *)

From Stdlib Require Import String List Bool Arith Lia.
Import ListNotations.
Local Open Scope string_scope.
Local Open Scope list_scope.

(** ** Synchronisation states and rows *)

Inductive SynchronizationStates : Type :=
| NEW
| SYNCING_SCHEDULED
| SYNCING
| IN_SYNC
| ERRED
| CREATION_SCHEDULED
| CREATING.

Definition state_eq_dec (a b : SynchronizationStates) : {a = b} + {a <> b}.
Proof. decide equality. Defined.

Definition state_eqb (a b : SynchronizationStates) : bool :=
  if state_eq_dec a b then true else false.

(** A row of a synchronisable model ([ServiceSettings], [Cloud], or the
    own columns of a [ServiceProjectLink]). *)
Record Entity : Type := mkEntity {
  uuid : string;
  name : string;
  state : SynchronizationStates;
  error_message : string
}.

Definition set_state (s : SynchronizationStates) (e : Entity) : Entity :=
  mkEntity (uuid e) (name e) s (error_message e).

Definition set_error_message (m : string) (e : Entity) : Entity :=
  mkEntity (uuid e) (name e) (state e) m.

(** A service project link: its own columns ([uuid] is the string
    produced by [to_string()]) and the key of the settings row reached
    through [spl.service.settings] (or [spl.cloud] for IaaS links). *)
Record ServiceProjectLink : Type := mkLink {
  link : Entity;
  settings_ref : string
}.

Definition set_link (e : Entity) (l : ServiceProjectLink) : ServiceProjectLink :=
  mkLink e (settings_ref l).

(** ** Exceptions and backend outcomes *)

Inductive Method : Type :=
| schedule_syncing
| begin_syncing
| begin_creating
| set_in_sync
| set_erred
| set_in_sync_from_erred.

Inductive Exc : Type :=
| ServiceBackendError (msg : string)
| ServiceBackendNotImplemented
| CloudBackendError (msg : string)
| TransitionNotAllowed (m : Method) (s : SynchronizationStates)
| DoesNotExist
| Retry
| MaxRetriesExceededError.

(** Text of an exception, as [six.text_type(exception)] gives it for the
    backend errors. *)
Definition exc_text (e : Exc) : string :=
  match e with
  | ServiceBackendError msg => msg
  | CloudBackendError msg => msg
  | ServiceBackendNotImplemented => ""
  | TransitionNotAllowed _ _ => "Transition not allowed"
  | DoesNotExist => "DoesNotExist"
  | Retry => "Retry"
  | MaxRetriesExceededError => "MaxRetriesExceededError"
  end.

Definition is_backend_error (e : Exc) : bool :=
  match e with
  | ServiceBackendError _ | CloudBackendError _ => true
  | _ => false
  end.

Inductive Outcome (A : Type) : Type :=
| Returns (a : A)
| Raises (e : Exc).
Arguments Returns {A} a.
Arguments Raises {A} e.

(** The adapter returned by [get_backend()]: what each operation does when
    it is called.  The key and user operations receive the payload. *)
Record Backend : Type := mkBackend {
  ping : Outcome bool;
  sync : Outcome unit;
  create_session_membership : Outcome unit;
  create_session_keystone : Outcome unit;
  add_ssh_key : string -> Outcome unit;
  remove_ssh_key : string -> Outcome unit;
  backend_add_user : string -> Outcome unit;
  backend_remove_user : string -> Outcome unit
}.

Inductive BackendOp : Type :=
| op_ping
| op_sync
| op_create_session
| op_add_ssh_key
| op_remove_ssh_key
| op_add_user
| op_remove_user.

(** ** Tasks, jobs, events *)

(** [settings_uuids=None], a single uuid, or a list or tuple of uuids. *)
Inductive UuidsArg : Type :=
| NoUuids
| OneUuid (u : string)
| ManyUuids (us : list string).

Inductive Task : Type :=
| t_sync_service_settings (settings_uuids : UuidsArg)
| t_begin_recovering_erred_service_settings (settings_uuid : string)
| t_recover_erred_service_settings (settings_uuids : UuidsArg)
| t_begin_syncing_service_settings (settings_uuid : string)
| t_begin_creating_service_settings (settings_uuid : string)
| t_sync_service_settings_succeeded (settings_uuid : string) (recovering : bool)
| t_sync_service_settings_failed (settings_uuid : string) (recovering : bool)
| t_recover_erred_service (service_project_link_str : string) (is_iaas : bool)
| t_push_ssh_public_key (ssh_public_key_uuid service_project_link_str : string)
| t_remove_ssh_public_key (key_data service_project_link_str : string)
| t_add_user (user_uuid service_project_link_str : string)
| t_remove_user (user_data service_project_link_str : string).

(** A submitted unit of work: [apply_async(args, link=..., link_error=...)]. *)
Record Job : Type := mkJob {
  job_task : Task;
  job_link : option Task;
  job_link_error : option Task;
  job_retries : nat
}.

Inductive Level : Type := DEBUG | INFO | WARNING.

Inductive Event : Type :=
| EvLog (lvl : Level) (fmt : string) (args : list string)
| EvBackend (op : BackendOp) (target : string)
| EvTransition (target : string) (src tgt : SynchronizationStates)
| EvSubmit (j : Job)
| EvRetry (t : Task).

(** ** The world *)

Record World : Type := mkWorld {
  service_settings : list Entity;
  clouds : list Entity;
  service_project_links : list ServiceProjectLink;
  ssh_public_keys : list string;
  users : list string;
  log : list Event;
  queue : list Job
}.

Definition with_service_settings (t : list Entity) (w : World) : World :=
  mkWorld t (clouds w) (service_project_links w) (ssh_public_keys w)
          (users w) (log w) (queue w).

Definition with_clouds (t : list Entity) (w : World) : World :=
  mkWorld (service_settings w) t (service_project_links w) (ssh_public_keys w)
          (users w) (log w) (queue w).

Definition with_links (t : list ServiceProjectLink) (w : World) : World :=
  mkWorld (service_settings w) (clouds w) t (ssh_public_keys w)
          (users w) (log w) (queue w).

Definition with_log (l : list Event) (w : World) : World :=
  mkWorld (service_settings w) (clouds w) (service_project_links w)
          (ssh_public_keys w) (users w) l (queue w).

Definition with_queue (q : list Job) (w : World) : World :=
  mkWorld (service_settings w) (clouds w) (service_project_links w)
          (ssh_public_keys w) (users w) (log w) q.

(** ** Table operations *)

Section Tables.
Variable A : Type.
Variable key : A -> string.

(** [objects.get(uuid=u)]: the first row with that key. *)
Definition lookup (u : string) (t : list A) : option A :=
  find (fun r => String.eqb (key r) u) t.

(** [obj.save()]: update the rows with the object's key, insert the
    object when there is none. *)
Definition upsert (x : A) (t : list A) : list A :=
  match lookup (key x) t with
  | Some _ => map (fun r => if String.eqb (key r) (key x) then x else r) t
  | None => t ++ [x]
  end.
End Tables.
Arguments lookup {A} key u t.
Arguments upsert {A} key x t.

Definition link_key (l : ServiceProjectLink) : string := uuid (link l).

Definition mem_string (u : string) (us : list string) : bool :=
  existsb (String.eqb u) us.

(** ** The task monad: state and exceptions *)

Inductive Result (A : Type) : Type :=
| Ok (a : A)
| Raise (e : Exc).
Arguments Ok {A} a.
Arguments Raise {A} e.

Definition M (A : Type) : Type := World -> Result A * World.

Definition ret {A} (a : A) : M A := fun w => (Ok a, w).

Definition bind {A B} (c : M A) (k : A -> M B) : M B :=
  fun w => match c w with
           | (Ok a, w') => k a w'
           | (Raise e, w') => (Raise e, w')
           end.

Definition raise {A} (e : Exc) : M A := fun w => (Raise e, w).

(** [try: c except ...: h e]; a handler re-raises what it does not catch. *)
Definition try_except {A} (c : M A) (h : Exc -> M A) : M A :=
  fun w => match c w with
           | (Ok a, w') => (Ok a, w')
           | (Raise e, w') => h e w'
           end.

Declare Scope task_scope.
Delimit Scope task_scope with task.
Notation "x <- c ;; k" := (bind c (fun x => k))
  (at level 61, c at next level, right associativity) : task_scope.
Notation "c ;; k" := (bind c (fun _ => k))
  (at level 61, right associativity) : task_scope.
Local Open Scope task_scope.

Definition exec {A} (c : M A) (w : World) : World := snd (c w).
Definition result {A} (c : M A) (w : World) : Result A := fst (c w).

Definition emit (ev : Event) : M unit :=
  fun w => (Ok tt, with_log (log w ++ [ev]) w).

Definition logger (lvl : Level) (fmt : string) (args : list string) : M unit :=
  emit (EvLog lvl fmt args).

Fixpoint for_each {A} (l : list A) (body : A -> M unit) : M unit :=
  match l with
  | [] => ret tt
  | x :: rest => body x ;; for_each rest body
  end.

(** Submitting a job to the broker. *)
Definition apply_async (t : Task) (on_success on_error : option Task) : M unit :=
  let j := mkJob t on_success on_error 0 in
  fun w => (Ok tt, with_queue (queue w ++ [j]) (with_log (log w ++ [EvSubmit j]) w)).

Definition delay (t : Task) : M unit := apply_async t None None.

(** Python values a task returns: [None], [True] or [False]. *)
Inductive PyVal : Type :=
| PyNone
| PyBool (b : bool).

Definition py_truthy (v : PyVal) : bool :=
  match v with
  | PyNone => false
  | PyBool b => b
  end.

Definition get_world : M World := fun w => (Ok w, w).

(** ** Model tables *)

Inductive Model : Type := ServiceSettings | Cloud.

Definition objects (m : Model) (w : World) : list Entity :=
  match m with
  | ServiceSettings => service_settings w
  | Cloud => clouds w
  end.

(** The model of [spl.cloud] for an IaaS link, of [spl.service.settings]
    otherwise. *)
Definition settings_model (is_iaas : bool) : Model :=
  if is_iaas then Cloud else ServiceSettings.

Definition save (m : Model) (e : Entity) : M unit :=
  fun w => (Ok tt,
            match m with
            | ServiceSettings => with_service_settings (upsert uuid e (service_settings w)) w
            | Cloud => with_clouds (upsert uuid e (clouds w)) w
            end).

Definition save_link (l : ServiceProjectLink) : M unit :=
  fun w => (Ok tt, with_links (upsert link_key l (service_project_links w)) w).

(** ** State machine of a synchronisable row *)

(** Modelled from the spec: the transition table of the synchronisable
    models ([nodeconductor.core.models] is not among the sources).  The
    sources of each method follow sections 4.1 and 4.2: [begin_syncing]
    from IN_SYNC or SYNCING_SCHEDULED, [schedule_syncing] from IN_SYNC (sweep)
    or ERRED (recovery), [begin_creating] from CREATION_SCHEDULED,
    [set_in_sync] from SYNCING or CREATING, [set_in_sync_from_erred] from
    ERRED.  [set_erred] is allowed from every state: the tasks call it on
    a row that is SYNCING_SCHEDULED and expect it to succeed. *)
Definition fsm_source (m : Method) (s : SynchronizationStates) : bool :=
  match m, s with
  | schedule_syncing, (IN_SYNC | ERRED) => true
  | begin_syncing, (IN_SYNC | SYNCING_SCHEDULED) => true
  | begin_creating, CREATION_SCHEDULED => true
  | set_in_sync, (SYNCING | CREATING) => true
  | set_erred, _ => true
  | set_in_sync_from_erred, ERRED => true
  | _, _ => false
  end.

Definition fsm_target (m : Method) : SynchronizationStates :=
  match m with
  | schedule_syncing => SYNCING_SCHEDULED
  | begin_syncing => SYNCING
  | begin_creating => CREATING
  | set_in_sync => IN_SYNC
  | set_erred => ERRED
  | set_in_sync_from_erred => IN_SYNC
  end.

(** Calling a transition method on an object in memory: the state of the
    object changes, or the call raises and the object is untouched. *)
Definition fsm_call (m : Method) (e : Entity) : M Entity :=
  if fsm_source m (state e)
  then emit (EvTransition (uuid e) (state e) (fsm_target m)) ;;
       ret (set_state (fsm_target m) e)
  else raise (TransitionNotAllowed m (state e)).

Definition state_display (s : SynchronizationStates) : string :=
  match s with
  | NEW => "NEW"
  | SYNCING_SCHEDULED => "SYNCING_SCHEDULED"
  | SYNCING => "SYNCING"
  | IN_SYNC => "IN_SYNC"
  | ERRED => "ERRED"
  | CREATION_SCHEDULED => "CREATION_SCHEDULED"
  | CREATING => "CREATING"
  end.

(** Modelled from the spec: the raw value of the [state] column, as [%s]
    formats it.  The constants of [SynchronizationStates] are declared in
    [nodeconductor.core.models], which is not among the sources; Section 3
    names the seven states and gives no values, so each value is written as
    its constant.  This is the column itself, not the label
    [get_state_display()] looks up for it. *)
Definition state_value (s : SynchronizationStates) : string :=
  match s with
  | NEW => "SynchronizationStates.NEW"
  | SYNCING_SCHEDULED => "SynchronizationStates.SYNCING_SCHEDULED"
  | SYNCING => "SynchronizationStates.SYNCING"
  | IN_SYNC => "SynchronizationStates.IN_SYNC"
  | ERRED => "SynchronizationStates.ERRED"
  | CREATION_SCHEDULED => "SynchronizationStates.CREATION_SCHEDULED"
  | CREATING => "SynchronizationStates.CREATING"
  end.

(** ** Decorators of nodeconductor.core.tasks *)

(** Modelled from the spec: the [transition] decorator of
    [nodeconductor.core.tasks], which is not among the sources.  Section
    4.1: fetch the row by its key, apply the transition method, persist
    the new state and hand the refreshed row to the task; an illegal
    transition raises and leaves the state unchanged.  Section 4.2, step
    3: a row deleted in the meantime is logged and the task returns. *)
Definition transition (m : Method) (func : string -> Entity -> M PyVal)
    (uuid_or_pk : string) : M PyVal :=
  w <- get_world ;;
  match lookup uuid uuid_or_pk (service_settings w) with
  | None =>
      logger WARNING "Missing service settings %s." [uuid_or_pk] ;;
      ret PyNone
  | Some entity =>
      entity' <- fsm_call m entity ;;
      save ServiceSettings entity' ;;
      func uuid_or_pk entity'
  end.

Definition update_error_message (u msg : string) : M unit :=
  fun w => (Ok tt,
            with_service_settings
              (map (fun r => if String.eqb (uuid r) u
                             then set_error_message msg r else r)
                   (service_settings w)) w).

(** Modelled from the spec: the [save_error_message] decorator of
    [nodeconductor.core.tasks], which is not among the sources.  Section
    4.2: an exception of the task is persisted as the row's error
    message, and the exception goes on to the failure continuation. *)
Definition save_error_message (func : string -> Entity -> M PyVal)
    (uuid_or_pk : string) (transition_entity : Entity) : M PyVal :=
  try_except (func uuid_or_pk transition_entity)
    (fun exception =>
       update_error_message (uuid transition_entity) (exc_text exception) ;;
       raise exception).

(** Modelled from the spec: the [retry_if_false] decorator of
    [nodeconductor.core.tasks], which is not among the sources.  Section
    4.3: a task that reports "not ready" asks the scheduler to invoke it
    again; the worker bounds the number of retries. *)
Definition retry_if_false (func : M PyVal) : M PyVal :=
  is_true <- func ;;
  if py_truthy is_true then ret is_true else raise Retry.

(** ** Selecting rows *)

Definition truthy (a : UuidsArg) : bool :=
  match a with
  | NoUuids => false
  | OneUuid u => negb (String.eqb u "")
  | ManyUuids us => match us with [] => false | _ => true end
  end.

Definition as_list (a : UuidsArg) : list string :=
  match a with
  | NoUuids => []
  | OneUuid u => [u]
  | ManyUuids us => us
  end.

(** [objects.all()] narrowed by [uuid__in] when uuids are given, by the
    default state otherwise. *)
Definition select (settings_uuids : UuidsArg) (default : SynchronizationStates)
    (all : list Entity) : list Entity :=
  if truthy settings_uuids
  then filter (fun e => mem_string (uuid e) (as_list settings_uuids)) all
  else filter (fun e => state_eqb (state e) default) all.

(** ** The tasks of nodeconductor/structure/tasks.py *)

Section Tasks.

(** [get_backend()] of a settings row or of a link, by its key. *)
Variable get_backend : string -> Backend.

(** Calling an adapter operation: the call is recorded, then returns or
    raises as the adapter says. *)
Definition call_backend {A} (op : BackendOp) (target : string)
    (o : Outcome A) : M A :=
  emit (EvBackend op target) ;;
  match o with
  | Returns a => ret a
  | Raises e => raise e
  end.

(** Body of the loop of [sync_service_settings]. *)
Definition sync_one (obj : Entity) : M unit :=
  let settings_uuid := uuid obj in
  if state_eqb (state obj) IN_SYNC then
    obj' <- fsm_call schedule_syncing obj ;;
    save ServiceSettings obj' ;;
    apply_async (t_begin_syncing_service_settings settings_uuid)
      (Some (t_sync_service_settings_succeeded settings_uuid false))
      (Some (t_sync_service_settings_failed settings_uuid false))
  else if state_eqb (state obj) CREATION_SCHEDULED then
    apply_async (t_begin_creating_service_settings settings_uuid)
      (Some (t_sync_service_settings_succeeded settings_uuid false))
      (Some (t_sync_service_settings_failed settings_uuid false))
  else
    logger WARNING "Cannot sync service settings %s from state %s"
      [name obj; state_value (state obj)].

(** The [throttle] decorator only limits how many instances are admitted
    at once; a sweep that is admitted runs this body. *)
Definition sync_service_settings (settings_uuids : UuidsArg) : M PyVal :=
  w <- get_world ;;
  let settings := select settings_uuids IN_SYNC (service_settings w) in
  for_each settings sync_one ;;
  ret PyNone.

Definition begin_recovering_erred_service_settings_body
    (settings_uuid : string) (transition_entity : Entity) : M PyVal :=
  let settings := transition_entity in
  is_active <-
    try_except
      (call_backend op_ping (uuid settings) (ping (get_backend (uuid settings))))
      (fun e => match e with
                | ServiceBackendNotImplemented => ret false
                | _ => raise e
                end) ;;
  if is_active : bool then
    apply_async (t_begin_syncing_service_settings settings_uuid)
      (Some (t_sync_service_settings_succeeded settings_uuid true))
      (Some (t_sync_service_settings_failed settings_uuid true)) ;;
    ret PyNone
  else
    settings' <- fsm_call set_erred settings ;;
    save ServiceSettings
      (set_error_message
         ("Failed to ping service settings " ++ name settings)%string settings') ;;
    logger INFO "Failed to recover service settings %s." [name settings] ;;
    ret PyNone.

Definition begin_recovering_erred_service_settings : string -> M PyVal :=
  transition schedule_syncing
    (save_error_message begin_recovering_erred_service_settings_body).

Definition recover_one (settings : Entity) : M unit :=
  if state_eqb (state settings) ERRED then
    let settings_uuid := uuid settings in
    delay (t_begin_recovering_erred_service_settings settings_uuid)
  else
    logger WARNING "Cannot recover service settings %s from state %s"
      [name settings; state_value (state settings)].

Definition recover_erred_service_settings (settings_uuids : UuidsArg) : M PyVal :=
  w <- get_world ;;
  let settings_list := select settings_uuids ERRED (service_settings w) in
  for_each settings_list recover_one ;;
  ret PyNone.

(** [backend.sync()] with the capability-absence signal swallowed. *)
Definition sync_body (settings_uuid : string) (transition_entity : Entity)
    : M PyVal :=
  let settings := transition_entity in
  try_except
    (call_backend op_sync (uuid settings) (sync (get_backend (uuid settings))))
    (fun e => match e with
              | ServiceBackendNotImplemented => ret tt
              | _ => raise e
              end) ;;
  ret PyNone.

Definition begin_syncing_service_settings : string -> M PyVal :=
  transition begin_syncing (save_error_message sync_body).

Definition begin_creating_service_settings : string -> M PyVal :=
  transition begin_creating (save_error_message sync_body).

Definition sync_service_settings_succeeded (settings_uuid : string)
    (recovering : bool) : M PyVal :=
  transition set_in_sync
    (fun _ transition_entity =>
       if recovering then
         let settings := transition_entity in
         save ServiceSettings (set_error_message "" settings) ;;
         logger INFO "Service settings %s successfully recovered." [name settings] ;;
         ret PyNone
       else ret PyNone)
    settings_uuid.

Definition sync_service_settings_failed (settings_uuid : string)
    (recovering : bool) : M PyVal :=
  transition set_erred
    (fun _ transition_entity =>
       if recovering then
         logger INFO "Failed to recover service settings %s."
           [name transition_entity] ;;
         ret PyNone
       else ret PyNone)
    settings_uuid.

(** One turn of [for entity in (spl, settings)] on the link itself. *)
Definition heal_link (spl : ServiceProjectLink) : M unit :=
  if state_eqb (state (link spl)) ERRED then
    entity <- fsm_call set_in_sync_from_erred (link spl) ;;
    save_link (set_link entity spl)
  else ret tt.

(** The same turn on the settings (or cloud) row. *)
Definition heal_settings (m : Model) (settings : Entity) : M unit :=
  if state_eqb (state settings) ERRED then
    entity <- fsm_call set_in_sync_from_erred settings ;;
    save m entity
  else ret tt.

Definition probe (spl : ServiceProjectLink) (settings : Entity)
    (is_iaas : bool) : M bool :=
  try_except
    (let backend := get_backend (link_key spl) in
     if is_iaas then
       try_except
         ((if state_eqb (state (link spl)) ERRED
           then call_backend op_create_session (link_key spl)
                  (create_session_membership backend)
           else ret tt) ;;
          (if state_eqb (state settings) ERRED
           then call_backend op_create_session (link_key spl)
                  (create_session_keystone backend)
           else ret tt) ;;
          ret true)
         (fun e => match e with
                   | CloudBackendError _ => ret false
                   | _ => raise e
                   end)
     else call_backend op_ping (link_key spl) (ping backend))
    (fun e => match e with
              | ServiceBackendError _ | ServiceBackendNotImplemented => ret false
              | _ => raise e
              end).

Definition recover_erred_service (service_project_link_str : string)
    (is_iaas : bool) : M PyVal :=
  w <- get_world ;;
  match lookup link_key service_project_link_str (service_project_links w) with
  | None =>
      logger WARNING "Missing service project link %s." [service_project_link_str] ;;
      ret PyNone
  | Some spl =>
      let m := settings_model is_iaas in
      match lookup uuid (settings_ref spl) (objects m w) with
      | None => raise DoesNotExist
      | Some settings =>
          is_active <- probe spl settings is_iaas ;;
          if is_active : bool then
            heal_link spl ;;
            heal_settings m settings ;;
            ret PyNone
          else
            logger INFO "Failed to recover service settings %s." [name settings] ;;
            ret PyNone
      end
  end.

(** The part of [push_ssh_public_key] after the state check. *)
Definition push_key_to_backend (public_key : string)
    (service_project_link : ServiceProjectLink) : M PyVal :=
  let service_project_link_str := link_key service_project_link in
  let backend := get_backend service_project_link_str in
  try_except
    (call_backend op_add_ssh_key service_project_link_str
       (add_ssh_key backend public_key) ;;
     logger INFO "SSH key %s has been pushed to service project link %s."
       [public_key; service_project_link_str])
    (fun e => match e with
              | ServiceBackendNotImplemented => ret tt
              | ServiceBackendError _ | CloudBackendError _ =>
                  logger WARNING
                    "Failed to push SSH key %s to service project link %s."
                    [public_key; service_project_link_str]
              | _ => raise e
              end) ;;
  ret (PyBool true).

Definition push_ssh_public_key_body
    (ssh_public_key_uuid service_project_link_str : string) : M PyVal :=
  w <- get_world ;;
  if negb (mem_string ssh_public_key_uuid (ssh_public_keys w)) then
    logger WARNING "Missing public key %s." [ssh_public_key_uuid] ;;
    ret (PyBool true)
  else
    match lookup link_key service_project_link_str (service_project_links w) with
    | None =>
        logger WARNING "Missing service project link %s."
          [service_project_link_str] ;;
        ret (PyBool true)
    | Some service_project_link =>
        let st := state (link service_project_link) in
        if negb (state_eqb st IN_SYNC) then
          logger DEBUG
            "Not pushing public keys for service project link %s which is in state %s."
            [service_project_link_str; state_display st] ;;
          if negb (state_eqb st ERRED) then
            logger DEBUG
              "Rescheduling synchronisation of keys for link %s in state %s."
              [service_project_link_str; state_display st] ;;
            ret (PyBool false)
          else push_key_to_backend ssh_public_key_uuid service_project_link
        else push_key_to_backend ssh_public_key_uuid service_project_link
    end.

Definition push_ssh_public_key
    (ssh_public_key_uuid service_project_link_str : string) : M PyVal :=
  retry_if_false (push_ssh_public_key_body ssh_public_key_uuid service_project_link_str).

Definition remove_ssh_public_key (key_data service_project_link_str : string)
    : M PyVal :=
  let public_key := key_data in
  w <- get_world ;;
  match lookup link_key service_project_link_str (service_project_links w) with
  | None =>
      logger WARNING "Missing service project link %s." [service_project_link_str] ;;
      ret (PyBool true)
  | Some service_project_link =>
      try_except
        (let backend := get_backend (link_key service_project_link) in
         call_backend op_remove_ssh_key (link_key service_project_link)
           (remove_ssh_key backend public_key) ;;
         logger INFO "SSH key %s has been removed from service project link %s."
           [public_key; service_project_link_str])
        (fun e => match e with
                  | ServiceBackendNotImplemented => ret tt
                  | ServiceBackendError _ | CloudBackendError _ =>
                      logger WARNING
                        "Failed to remove SSH key %s from service project link %s."
                        [public_key; service_project_link_str]
                  | _ => raise e
                  end) ;;
      ret PyNone
  end.

(** The part of [add_user] after the state check. *)
Definition add_user_to_backend (user : string)
    (service_project_link : ServiceProjectLink) : M PyVal :=
  let service_project_link_str := link_key service_project_link in
  let backend := get_backend service_project_link_str in
  try_except
    (call_backend op_add_user service_project_link_str (backend_add_user backend user) ;;
     logger INFO "User %s has been added to service project link %s."
       [user; service_project_link_str])
    (fun e => match e with
              | ServiceBackendNotImplemented => ret tt
              | ServiceBackendError _ | CloudBackendError _ =>
                  logger WARNING
                    "Failed to add user %s for service project link %s"
                    [user; service_project_link_str]
              | _ => raise e
              end) ;;
  ret (PyBool true).

Definition add_user_body (user_uuid service_project_link_str : string)
    : M PyVal :=
  w <- get_world ;;
  if negb (mem_string user_uuid (users w)) then
    logger WARNING "Missing user %s." [user_uuid] ;;
    ret (PyBool true)
  else
    match lookup link_key service_project_link_str (service_project_links w) with
    | None =>
        logger WARNING "Missing service project link %s."
          [service_project_link_str] ;;
        ret (PyBool true)
    | Some service_project_link =>
        let st := state (link service_project_link) in
        if negb (state_eqb st IN_SYNC) then
          logger DEBUG
            "Not adding users for service project link %s which is in state %s."
            [service_project_link_str; state_display st] ;;
          if negb (state_eqb st ERRED) then
            logger DEBUG
              "Rescheduling synchronisation of users for link %s in state %s."
              [service_project_link_str; state_display st] ;;
            ret (PyBool false)
          else add_user_to_backend user_uuid service_project_link
        else add_user_to_backend user_uuid service_project_link
    end.

Definition add_user (user_uuid service_project_link_str : string)
    : M PyVal :=
  retry_if_false (add_user_body user_uuid service_project_link_str).

Definition remove_user (user_data service_project_link_str : string)
    : M PyVal :=
  let user := user_data in
  w <- get_world ;;
  match lookup link_key service_project_link_str (service_project_links w) with
  | None =>
      logger WARNING "Missing service project link %s." [service_project_link_str] ;;
      ret (PyBool true)
  | Some service_project_link =>
      try_except
        (let backend := get_backend (link_key service_project_link) in
         call_backend op_remove_user (link_key service_project_link)
           (backend_remove_user backend user) ;;
         logger INFO "User %s has been removed from service project link %s."
           [user; service_project_link_str])
        (fun e => match e with
                  | ServiceBackendNotImplemented => ret tt
                  | _ => raise e
                  end) ;;
      ret PyNone
  end.

(** ** The worker *)

Definition run_task (t : Task) : M PyVal :=
  match t with
  | t_sync_service_settings a => sync_service_settings a
  | t_begin_recovering_erred_service_settings u =>
      begin_recovering_erred_service_settings u
  | t_recover_erred_service_settings a => recover_erred_service_settings a
  | t_begin_syncing_service_settings u => begin_syncing_service_settings u
  | t_begin_creating_service_settings u => begin_creating_service_settings u
  | t_sync_service_settings_succeeded u r => sync_service_settings_succeeded u r
  | t_sync_service_settings_failed u r => sync_service_settings_failed u r
  | t_recover_erred_service l i => recover_erred_service l i
  | t_push_ssh_public_key k l => push_ssh_public_key k l
  | t_remove_ssh_public_key k l => remove_ssh_public_key k l
  | t_add_user u l => add_user u l
  | t_remove_user u l => remove_user u l
  end.

(** [max_retries] of the task declaration; Celery's default is 3. *)
Definition max_retries (t : Task) : nat :=
  match t with
  | t_push_ssh_public_key _ _ | t_add_user _ _ => 120
  | _ => 3
  end.

Definition enqueue (j : Job) (w : World) : World :=
  with_queue (queue w ++ [j]) w.

Definition callback (t : option Task) (w : World) : World :=
  match t with
  | Some t' => enqueue (mkJob t' None None 0) w
  | None => w
  end.

(** Running one job: a task that returns triggers its [link]; a task
    that asks for a retry is queued again while retries remain; any
    other exception triggers its [link_error]. *)
Definition run_job (j : Job) (w : World) : World :=
  match run_task (job_task j) w with
  | (Ok _, w') => callback (job_link j) w'
  | (Raise Retry, w') =>
      if Nat.ltb (job_retries j) (max_retries (job_task j))
      then enqueue (mkJob (job_task j) (job_link j) (job_link_error j)
                          (S (job_retries j)))
                   (with_log (log w' ++ [EvRetry (job_task j)]) w')
      else callback (job_link_error j) w'
  | (Raise _, w') => callback (job_link_error j) w'
  end.

Definition worker_step (w : World) : World :=
  match queue w with
  | [] => w
  | j :: q => run_job j (with_queue q w)
  end.

Fixpoint worker (n : nat) (w : World) : World :=
  match n with
  | O => w
  | S n' => worker n' (worker_step w)
  end.

End Tasks.

(** ** Observations on a run *)

Definition is_backend_call (ev : Event) : bool :=
  match ev with
  | EvBackend _ _ => true
  | _ => false
  end.

(** The adapter operations recorded in a log. *)
Definition backend_calls (l : list Event) : list Event := filter is_backend_call l.

Definition is_submit (ev : Event) : bool :=
  match ev with
  | EvSubmit _ => true
  | _ => false
  end.

Definition is_warning (ev : Event) : bool :=
  match ev with
  | EvLog WARNING _ _ => true
  | _ => false
  end.

Definition is_transition (ev : Event) : bool :=
  match ev with
  | EvTransition _ _ _ => true
  | _ => false
  end.

Definition succeeded {A} (r : Result A) : bool :=
  match r with
  | Ok _ => true
  | Raise _ => false
  end.


(** The jobs [sync_service_settings] submits for a row. *)
Definition syncing_job (u : string) : Job :=
  mkJob (t_begin_syncing_service_settings u)
        (Some (t_sync_service_settings_succeeded u false))
        (Some (t_sync_service_settings_failed u false)) 0.

Definition creating_job (u : string) : Job :=
  mkJob (t_begin_creating_service_settings u)
        (Some (t_sync_service_settings_succeeded u false))
        (Some (t_sync_service_settings_failed u false)) 0.

Definition recovering_job (u : string) : Job :=
  mkJob (t_begin_recovering_erred_service_settings u) None None 0.


Definition is_retry (ev : Event) : bool :=
  match ev with
  | EvRetry _ => true
  | _ => false
  end.

Definition is_none {A} (o : option A) : bool :=
  match o with
  | None => true
  | Some _ => false
  end.

(** A dependent operation one of whose references resolves to nothing:
    the key or user of a push or add is gone, or the link is gone. *)
Definition dangling (t : Task) (w : World) : bool :=
  match t with
  | t_push_ssh_public_key k l =>
      negb (mem_string k (ssh_public_keys w))
      || is_none (lookup link_key l (service_project_links w))
  | t_add_user u l =>
      negb (mem_string u (users w))
      || is_none (lookup link_key l (service_project_links w))
  | t_remove_ssh_public_key _ l | t_remove_user _ l =>
      is_none (lookup link_key l (service_project_links w))
  | _ => false
  end.

(** The task calls adapter operation [op] on link [l], once. *)
Definition acts (get_backend : string -> Backend) (t : Task) (op : BackendOp)
    (l : string) (w : World) : Prop :=
  backend_calls (log (exec (run_task get_backend t) w)) =
  backend_calls (log w) ++ [EvBackend op l].

(** The task calls no adapter operation and asks to be run again; the
    worker queues it again while retries remain. *)
Definition defers (get_backend : string -> Backend) (t : Task) (w : World) : Prop :=
  result (run_task get_backend t) w = Raise Retry /\
  backend_calls (log (exec (run_task get_backend t) w)) = backend_calls (log w) /\
  forall (lk lke : option Task) (n : nat),
    n < max_retries t ->
    queue (run_job get_backend (mkJob t lk lke n) w) =
    queue w ++ [mkJob t lk lke (S n)].

(** The jobs one turn of the sweep's loop submits for a row. *)
Definition jobs_for (obj : Entity) : list Job :=
  if state_eqb (state obj) IN_SYNC then [syncing_job (uuid obj)]
  else if state_eqb (state obj) CREATION_SCHEDULED then [creating_job (uuid obj)]
  else [].

(** The table after the sweep's loop has run over the rows [sel]. *)
Definition sweep_rows (sel t : list Entity) : list Entity :=
  fold_left
    (fun t obj =>
       if state_eqb (state obj) IN_SYNC
       then upsert uuid (set_state SYNCING_SCHEDULED obj) t
       else t)
    sel t.

(** What the per-link recovery may leave in the log: transitions from
    ERRED straight to IN_SYNC, adapter operations other than [sync], log
    lines; no submitted job. *)
Definition direct_heal (ev : Event) : Prop :=
  match ev with
  | EvTransition _ src tgt => src = ERRED /\ tgt = IN_SYNC
  | EvBackend op _ => op <> op_sync
  | EvSubmit _ => False
  | EvRetry _ => False
  | EvLog _ _ _ => True
  end.

(** Rows of key [u] are all SYNCING_SCHEDULED. *)
Definition marked (u : string) (t : list Entity) : Prop :=
  forall r, In r t -> uuid r = u -> state r = SYNCING_SCHEDULED.

(** ** Concrete worlds and adapters *)

(** A row that is SYNCING and still carries the message of an earlier
    failure. *)
Definition stale_error_world : World :=
  mkWorld [mkEntity "e1" "E1" SYNCING "timeout"] [] [] [] [] [] [].

(** Adapters: one that supports and completes every operation, one that
    supports none, one whose every operation fails with a backend error. *)
Definition backend_ok : Backend :=
  mkBackend (Returns true) (Returns tt) (Returns tt) (Returns tt)
    (fun _ => Returns tt) (fun _ => Returns tt)
    (fun _ => Returns tt) (fun _ => Returns tt).


Definition backend_failing : Backend :=
  mkBackend (Returns true) (Raises (ServiceBackendError "timeout"))
    (Raises (CloudBackendError "timeout")) (Raises (CloudBackendError "timeout"))
    (fun _ => Raises (ServiceBackendError "timeout"))
    (fun _ => Raises (ServiceBackendError "timeout"))
    (fun _ => Raises (ServiceBackendError "timeout"))
    (fun _ => Raises (ServiceBackendError "timeout")).

(** One settings row, one link to it, one key and one user. *)
Definition world_with (settings_state link_state : SynchronizationStates)
    (msg : string) : World :=
  mkWorld [mkEntity "e1" "E1" settings_state msg] []
          [mkLink (mkEntity "l1" "L1" link_state "") "e1"]
          ["k1"] ["u1"] [] [].

(** ** Descriptions of what the sweeps do *)

(** Whether a sweep given [a] selects row [r]: by uuid when uuids are
    given, by the default state otherwise. *)
Definition selects (a : UuidsArg) (default : SynchronizationStates)
    (r : Entity) : bool :=
  if truthy a then mem_string (uuid r) (as_list a)
  else state_eqb (state r) default.

(** The row the sweep leaves in place of [r]. *)
Definition swept (a : UuidsArg) (r : Entity) : Entity :=
  if selects a IN_SYNC r && state_eqb (state r) IN_SYNC
  then set_state SYNCING_SCHEDULED r else r.

(** Some row among [done] has the key of [r] and was IN_SYNC. *)
Definition hit (done : list Entity) (r : Entity) : bool :=
  existsb (fun o => String.eqb (uuid o) (uuid r) && state_eqb (state o) IN_SYNC)
          done.

Definition mark_hit (done : list Entity) (r : Entity) : Entity :=
  if hit done r then set_state SYNCING_SCHEDULED r else r.

(** A selected row the sync sweep can do nothing with. *)
Definition unsyncable (r : Entity) : bool :=
  negb (state_eqb (state r) IN_SYNC)
  && negb (state_eqb (state r) CREATION_SCHEDULED).

Definition cannot_sync (r : Entity) : Event :=
  EvLog WARNING "Cannot sync service settings %s from state %s"
    [name r; state_value (state r)].

Definition cannot_recover (r : Entity) : Event :=
  EvLog WARNING "Cannot recover service settings %s from state %s"
    [name r; state_value (state r)].

(** What one turn of the recovery sweep's loop adds to the log. *)
Definition recover_event (r : Entity) : Event :=
  if state_eqb (state r) ERRED then EvSubmit (recovering_job (uuid r))
  else cannot_recover r.

(** A log line without the state it mentions: its level, its format and
    its first argument, the name of the row.  Other events are kept
    whole. *)
Definition outline (ev : Event) : Event :=
  match ev with
  | EvLog lvl fmt args => EvLog lvl fmt (firstn 1 args)
  | _ => ev
  end.


(** Everything of a world but its settings table, log and queue. *)
Definition rest_of (w : World) :
    list Entity * list ServiceProjectLink * list string * list string :=
  (clouds w, service_project_links w, ssh_public_keys w, users w).

(** The tables of a world: everything but its log and queue. *)
Definition tables_of (w : World) :
    list Entity * list Entity * list ServiceProjectLink * list string * list string :=
  (service_settings w, clouds w, service_project_links w, ssh_public_keys w, users w).

(** Three settings rows in three different states. *)
Definition three_rows_world : World :=
  mkWorld [mkEntity "e1" "E1" IN_SYNC "";
           mkEntity "e2" "E2" IN_SYNC "";
           mkEntity "e3" "E3" ERRED "timeout"]
          [] [] [] [] [] [].

(** ** Descriptions of what the propagation tasks do *)

Definition is_propagation (t : Task) : bool :=
  match t with
  | t_push_ssh_public_key _ _ | t_remove_ssh_public_key _ _
  | t_add_user _ _ | t_remove_user _ _ => true
  | _ => false
  end.

(** The link exists and is IN_SYNC or ERRED. *)
Definition link_passes (l : string) (w : World) : bool :=
  match lookup link_key l (service_project_links w) with
  | Some spl =>
      state_eqb (state (link spl)) IN_SYNC || state_eqb (state (link spl)) ERRED
  | None => false
  end.

(** The link exists and is neither IN_SYNC nor ERRED. *)
Definition link_not_ready (l : string) (w : World) : bool :=
  match lookup link_key l (service_project_links w) with
  | Some spl =>
      negb (state_eqb (state (link spl)) IN_SYNC)
      && negb (state_eqb (state (link spl)) ERRED)
  | None => false
  end.

(** ** Services and links for shared settings *)

(** The columns of a [ServiceSettings] row that
    [create_spls_and_services_for_shared_settings] reads. *)
Record SettingsRow : Type := mkSettingsRow {
  row : Entity;
  shared : bool;
  settings_type : string
}.

Record Project : Type := mkProject {
  project_uuid : string;
  project_customer : string
}.

(** A row of a service model: its primary key within that model's table,
    the model, and the columns the task sets. *)
Record Service : Type := mkService {
  srv_id : nat;
  srv_model : string;
  srv_customer : string;
  srv_settings : string;
  srv_name : string;
  srv_available_for_all : bool
}.

(** A row of [service.projects.through] of a service model. *)
Record Through : Type := mkThrough {
  thr_model : string;
  thr_project : string;
  thr_service : nat
}.

Record Directory : Type := mkDirectory {
  dir_settings : list SettingsRow;
  dir_customers : list string;
  dir_projects : list Project;
  dir_services : list Service;
  dir_links : list Through
}.

Definition with_dir_services (l : list Service) (d : Directory) : Directory :=
  mkDirectory (dir_settings d) (dir_customers d) (dir_projects d) l (dir_links d).

Definition with_dir_links (l : list Through) (d : Directory) : Directory :=
  mkDirectory (dir_settings d) (dir_customers d) (dir_projects d) (dir_services d) l.

(** [service_model.objects.filter(customer=customer, settings=settings)]. *)
Definition service_matches (model customer settings : string) (s : Service) : bool :=
  String.eqb (srv_model s) model
  && String.eqb (srv_customer s) customer
  && String.eqb (srv_settings s) settings.

(** [queryset.first()] on a queryset that is not empty: the row with the
    smallest primary key. *)
Definition first_by_id (s0 : Service) (rest : list Service) : Service :=
  fold_left (fun best s => if Nat.ltb (srv_id s) (srv_id best) then s else best)
            rest s0.

(** The primary key a created row gets: one its table does not hold yet
    (here: one past the largest of the model's table). *)
Definition next_id (model : string) (services : list Service) : nat :=
  S (fold_right Nat.max 0
       (map srv_id (filter (fun s => String.eqb (srv_model s) model) services))).

Definition link_matches (model project : string) (service : nat) (t : Through) : bool :=
  String.eqb (thr_model t) model
  && String.eqb (thr_project t) project
  && Nat.eqb (thr_service t) service.

(** Body of the loop over the projects of the service's customer. *)
Definition ensure_link (model : string) (service : Service) (d : Directory)
    (project : Project) : Directory :=
  if existsb (link_matches model (project_uuid project) (srv_id service))
             (dir_links d)
  then d
  else with_dir_links
         (dir_links d ++ [mkThrough model (project_uuid project) (srv_id service)]) d.

(** Body of the loop over the customers. *)
Definition ensure_service (model : string) (settings : SettingsRow)
    (d : Directory) (customer : string) : Directory :=
  let services :=
    filter (service_matches model customer (uuid (row settings))) (dir_services d) in
  let created :=
    mkService (next_id model (dir_services d)) model customer
              (uuid (row settings)) (name (row settings)) true in
  let service :=
    match services with
    | [] => created
    | s0 :: rest => first_by_id s0 rest
    end in
  let d1 :=
    match services with
    | [] => with_dir_services (dir_services d ++ [created]) d
    | _ :: _ => d
    end in
  fold_left (ensure_link model service)
    (filter (fun p => String.eqb (project_customer p) (srv_customer service))
            (dir_projects d1))
    d1.

Section SharedSettings.

(** [SupportedServices.get_service_models()[type]['service']]: the service
    model registered for a settings type; [None] is Python's KeyError. *)
Variable service_models : string -> option string.

(** The loop over the selected settings; the second component is the key
    of the KeyError that ended it, if one did. *)
Fixpoint ensure_all (shared_settings : list SettingsRow) (d : Directory)
    : Directory * option string :=
  match shared_settings with
  | [] => (d, None)
  | settings :: rest =>
      match service_models (settings_type settings) with
      | None => (d, Some (settings_type settings))
      | Some service_model =>
          ensure_all rest
            (fold_left (ensure_service service_model settings) (dir_customers d) d)
      end
  end.

Definition select_shared (settings_uuids : UuidsArg) (all : list SettingsRow)
    : list SettingsRow :=
  if truthy settings_uuids
  then filter (fun s => mem_string (uuid (row s)) (as_list settings_uuids)) all
  else filter (fun s => state_eqb (state (row s)) IN_SYNC && shared s) all.

Definition create_spls_and_services_for_shared_settings
    (settings_uuids : UuidsArg) (d : Directory) : Directory * option string :=
  ensure_all (select_shared settings_uuids (dir_settings d)) d.

End SharedSettings.

(** Customer [customer] has a service of [model] on [settings], and every
    project of the customer is linked to the one [first()] picks. *)
Definition covered (model customer settings : string) (d : Directory) : Prop :=
  exists s0 rest,
    filter (service_matches model customer settings) (dir_services d) = s0 :: rest /\
    forall p, In p (dir_projects d) -> project_customer p = customer ->
              existsb (link_matches model (project_uuid p)
                         (srv_id (first_by_id s0 rest)))
                      (dir_links d) = true.

(** How many services of [model] a customer has on a settings row. *)
Definition service_count (model customer settings : string) (d : Directory) : nat :=
  length (filter (service_matches model customer settings) (dir_services d)).

(** A directory to run on: two customers, one with two projects, a shared
    settings row with one service already there, and a settings row of a
    type that has no service model. *)
Definition registry (t : string) : option string :=
  if String.eqb t "OpenStack" then Some "openstack.OpenStackService"
  else if String.eqb t "Zabbix" then Some "zabbix.ZabbixService"
  else None.

Definition sample_directory : Directory :=
  mkDirectory
    [mkSettingsRow (mkEntity "s1" "Shared cloud" IN_SYNC "") true "OpenStack";
     mkSettingsRow (mkEntity "s2" "Private cloud" IN_SYNC "") false "OpenStack";
     mkSettingsRow (mkEntity "s3" "Monitoring" ERRED "down") true "Zabbix";
     mkSettingsRow (mkEntity "s4" "Unknown" IN_SYNC "") true "Oracle"]
    ["c1"; "c2"]
    [mkProject "p1" "c1"; mkProject "p2" "c1"; mkProject "p3" "c2"]
    [mkService 7 "openstack.OpenStackService" "c1" "s1" "old" false]
    [mkThrough "openstack.OpenStackService" "p1" 7].

(** The second directory has the settings, customers and projects of the
    first, and its services and links with rows appended. *)
Definition grows (d d' : Directory) : Prop :=
  dir_settings d' = dir_settings d /\
  dir_customers d' = dir_customers d /\
  dir_projects d' = dir_projects d /\
  (exists es, dir_services d' = dir_services d ++ es) /\
  (exists el, dir_links d' = dir_links d ++ el).

(** The selected settings the loop gets through: those before the first
    one whose type has no service model. *)
Fixpoint served (service_models : string -> option string)
    (sel : list SettingsRow) : list SettingsRow :=
  match sel with
  | [] => []
  | s :: rest =>
      match service_models (settings_type s) with
      | None => []
      | Some _ => s :: served service_models rest
      end
  end.

(** The type of the first selected settings that has no service model. *)
Fixpoint first_unregistered (service_models : string -> option string)
    (sel : list SettingsRow) : option string :=
  match sel with
  | [] => None
  | s :: rest =>
      match service_models (settings_type s) with
      | None => Some (settings_type s)
      | Some _ => first_unregistered service_models rest
      end
  end.

(** How many links of [model] join a project and a service. *)
Definition link_count (model project : string) (service : nat) (d : Directory) : nat :=
  length (filter (link_matches model project service) (dir_links d)).

(** A count that stays as it is, or goes from none to exactly one. *)
Definition steady (n n' : nat) : Prop := n' = n \/ (n = 0 /\ n' = 1).

Definition no_duplicates_added (d d' : Directory) : Prop :=
  (forall model customer settings,
      steady (service_count model customer settings d)
             (service_count model customer settings d')) /\
  (forall model project service,
      steady (link_count model project service d)
             (link_count model project service d')).

(** ** Fanning a key push out over links *)

Section FanOut.

(** [SshPublicKey.objects.filter(user__groups__projectrole__project=
    link.project)]: the keys of the users with a role in the link's
    project, as the query returns them. *)
Variable project_keys : ServiceProjectLink -> list string.

(** Body of the loop of [push_ssh_public_keys]. *)
Definition push_keys_of_link (link : ServiceProjectLink) : M unit :=
  let str_link := link_key link in
  let ssh_keys := project_keys link in
  match ssh_keys with
  | [] =>
      logger DEBUG "There are no SSH public keys to push for link %s" [str_link]
  | _ :: _ =>
      for_each ssh_keys (fun key => delay (t_push_ssh_public_key key str_link))
  end.

(** [from_string] yields the links its strings resolve to, one by one as
    the loop asks for them; a string that resolves to nothing yields
    nothing (which is why the other tasks catch StopIteration). *)
Definition push_ssh_public_keys (link_strings : list string) : M PyVal :=
  for_each link_strings
    (fun s =>
       w <- get_world ;;
       match lookup link_key s (service_project_links w) with
       | Some link => push_keys_of_link link
       | None => ret tt
       end) ;;
  ret PyNone.

(** The jobs the fan-out queues for one link string. *)
Definition fan_out_jobs (w : World) (s : string) : list Job :=
  match lookup link_key s (service_project_links w) with
  | Some link =>
      map (fun key => mkJob (t_push_ssh_public_key key (link_key link)) None None 0)
          (project_keys link)
  | None => []
  end.

End FanOut.

Ltac run_monad :=
  unfold bind, ret, raise, try_except, get_world, emit, logger, save,
    update_error_message, call_backend, apply_async, delay; simpl.

Ltac outcome_cases o :=
  let E := fresh "E" in
  destruct o as [[]|[]] eqn:E; simpl.

Ltac log_filter :=
  unfold backend_calls; simpl;
  repeat rewrite filter_app; simpl;
  repeat rewrite app_nil_r; repeat rewrite <- app_assoc; simpl;
  try reflexivity.

Ltac heal_log Hlog Hcalls :=
  eexists; split;
  [ simpl; rewrite ?Hlog; rewrite <- ?app_assoc; reflexivity
  | repeat (apply Forall_app; split); try exact Hcalls;
    repeat constructor ].

(** * Properties *)

(** ** Tables *)

Section TableFacts.
Context {A : Type}.
Variable key : A -> string.

Lemma lookup_key (u : string) (t : list A) (x : A) :
  lookup key u t = Some x -> key x = u.
Proof.
  unfold lookup. intros H. apply find_some in H. destruct H as [_ H].
  now apply String.eqb_eq.
Qed.


Lemma lookup_none (u : string) (t : list A) (x : A) :
  lookup key u t = None -> In x t -> key x <> u.
Proof.
  unfold lookup. intros H Hin Hk.
  apply (find_none _ _ H) in Hin. rewrite Hk, String.eqb_refl in Hin. discriminate.
Qed.


Lemma lookup_replace (x : A) (t : list A) (y : A) :
  lookup key (key x) t = Some y ->
  lookup key (key x)
    (map (fun r => if String.eqb (key r) (key x) then x else r) t) = Some x.
Proof.
  unfold lookup. induction t as [|r t IH]; simpl; [discriminate|].
  destruct (String.eqb (key r) (key x)) eqn:E.
  - intros _. now rewrite String.eqb_refl.
  - rewrite E. exact IH.
Qed.

Lemma lookup_append (u : string) (t : list A) (x : A) :
  lookup key u t = None -> key x = u -> lookup key u (t ++ [x]) = Some x.
Proof.
  unfold lookup. intros Hn Hk. induction t as [|r t IH]; simpl in *.
  - now rewrite Hk, String.eqb_refl.
  - destruct (String.eqb (key r) u); [discriminate|]. now apply IH.
Qed.

(** After [save], fetching the object's key gives the saved object. *)
Lemma lookup_upsert (x : A) (t : list A) :
  lookup key (key x) (upsert key x t) = Some x.
Proof.
  unfold upsert. destruct (lookup key (key x) t) as [y|] eqn:E.
  - now apply lookup_replace with y.
  - now apply lookup_append.
Qed.

(** [save] leaves the rows with another key as they are. *)
Lemma lookup_upsert_other (u : string) (x : A) (t : list A) :
  key x <> u -> lookup key u (upsert key x t) = lookup key u t.
Proof.
  intros Hne. unfold upsert. destruct (lookup key (key x) t) as [y|] eqn:E.
  - clear E. unfold lookup. induction t as [|r t IH]; simpl; [reflexivity|].
    destruct (String.eqb (key r) (key x)) eqn:Ex.
    + apply String.eqb_eq in Ex.
      assert (String.eqb (key x) u = false) as -> by now apply String.eqb_neq.
      assert (String.eqb (key r) u = false) as ->
        by (apply String.eqb_neq; congruence).
      exact IH.
    + destruct (String.eqb (key r) u); [reflexivity|exact IH].
  - clear E. unfold lookup. induction t as [|r t IH]; simpl.
    + now assert (String.eqb (key x) u = false) as -> by now apply String.eqb_neq.
    + destruct (String.eqb (key r) u); [reflexivity|exact IH].
Qed.

(** Every row of the saved table with the object's key is the object. *)
Lemma upsert_rows (x : A) (t : list A) (r : A) :
  In r (upsert key x t) -> key r = key x -> r = x.
Proof.
  unfold upsert. destruct (lookup key (key x) t) as [y|] eqn:E.
  - intros Hin Hk. apply in_map_iff in Hin. destruct Hin as [r0 [Hr0 _]].
    destruct (String.eqb (key r0) (key x)) eqn:Ex; [congruence|].
    subst r0. apply String.eqb_neq in Ex. contradiction.
  - intros Hin Hk. apply in_app_or in Hin. destruct Hin as [Hin|[Hin|[]]].
    + exfalso. apply (lookup_none _ _ _ E Hin). exact Hk.
    + congruence.
Qed.

Lemma upsert_other_rows (x : A) (t : list A) (r : A) :
  In r (upsert key x t) -> key r <> key x -> In r t.
Proof.
  unfold upsert. destruct (lookup key (key x) t) as [y|] eqn:E.
  - intros Hin Hk. apply in_map_iff in Hin. destruct Hin as [r0 [Hr0 Hin]].
    destruct (String.eqb (key r0) (key x)) eqn:Ex; [congruence|].
    now subst r0.
  - intros Hin Hk. apply in_app_or in Hin. destruct Hin as [Hin|[Hin|[]]].
    + exact Hin.
    + congruence.
Qed.


End TableFacts.

Lemma state_eqb_eq (a b : SynchronizationStates) :
  state_eqb a b = true <-> a = b.
Proof.
  unfold state_eqb. destruct (state_eq_dec a b); split; congruence.
Qed.

Lemma state_eqb_refl (a : SynchronizationStates) : state_eqb a a = true.
Proof. now apply state_eqb_eq. Qed.

Lemma state_eqb_neq (a b : SynchronizationStates) :
  state_eqb a b = false <-> a <> b.
Proof.
  unfold state_eqb. destruct (state_eq_dec a b); split; congruence.
Qed.

Ltac erred_cases x :=
  let E := fresh "E" in
  destruct (state_eqb x ERRED) eqn:E;
  [apply state_eqb_eq in E | apply state_eqb_neq in E].

(** ** The decorators *)

(** What [transition] does on a row that exists and may take the method:
    the task body runs on the refreshed row, in a world where the new
    state is persisted. *)
Lemma transition_run (m : Method) (func : string -> Entity -> M PyVal)
    (u : string) (e : Entity) (w : World) :
  lookup uuid u (service_settings w) = Some e ->
  fsm_source m (state e) = true ->
  transition m func u w =
  func u (set_state (fsm_target m) e)
    (with_service_settings
       (upsert uuid (set_state (fsm_target m) e) (service_settings w))
       (with_log (log w ++ [EvTransition (uuid e) (state e) (fsm_target m)]) w)).
Proof.
  intros Hl Hs. unfold transition, bind, get_world. rewrite Hl.
  unfold fsm_call. rewrite Hs. reflexivity.
Qed.

Lemma transition_missing (m : Method) (func : string -> Entity -> M PyVal)
    (u : string) (w : World) :
  lookup uuid u (service_settings w) = None ->
  transition m func u w =
  (Ok PyNone, with_log (log w ++ [EvLog WARNING "Missing service settings %s." [u]]) w).
Proof.
  intros Hl. unfold transition, bind, get_world. rewrite Hl. reflexivity.
Qed.

Lemma transition_refused (m : Method) (func : string -> Entity -> M PyVal)
    (u : string) (e : Entity) (w : World) :
  lookup uuid u (service_settings w) = Some e ->
  fsm_source m (state e) = false ->
  transition m func u w = (Raise (TransitionNotAllowed m (state e)), w).
Proof.
  intros Hl Hs. unfold transition, bind, get_world. rewrite Hl.
  unfold fsm_call. rewrite Hs. reflexivity.
Qed.

(** ** Success and failure continuations *)

(** C2, as the code has it: the success continuation moves the row to
    IN_SYNC, and it empties the error message only when it is called with
    [recovering=True]; called with [recovering=False] it leaves the error
    message as it was. *)
Theorem succeeded_clears_error_when_recovering
    (w : World) (u : string) (e : Entity) (recovering : bool) :
  lookup uuid u (service_settings w) = Some e ->
  fsm_source set_in_sync (state e) = true ->
  result (sync_service_settings_succeeded u recovering) w = Ok PyNone /\
  lookup uuid u
    (service_settings (exec (sync_service_settings_succeeded u recovering) w)) =
  Some (mkEntity (uuid e) (name e) IN_SYNC
          (if recovering then "" else error_message e)).
Proof.
  intros Hl Hs. pose proof (lookup_key _ _ _ _ Hl) as Hu. subst u.
  unfold result, exec, sync_service_settings_succeeded.
  rewrite (transition_run _ _ _ _ _ Hl Hs).
  destruct recovering; run_monad.
  - split; [reflexivity|].
    apply (lookup_upsert uuid (set_error_message "" (set_state IN_SYNC e))).
  - split; [reflexivity|].
    apply (lookup_upsert uuid (set_state IN_SYNC e)).
Qed.

Lemma succeeded_clears_error_when_recovering_witness :
  result (sync_service_settings_succeeded "e1" true) stale_error_world = Ok PyNone /\
  lookup uuid "e1"
    (service_settings
       (exec (sync_service_settings_succeeded "e1" true) stale_error_world)) =
  Some (mkEntity "e1" "E1" IN_SYNC "").
Proof.
  apply (succeeded_clears_error_when_recovering stale_error_world "e1"
           (mkEntity "e1" "E1" SYNCING "timeout") true); reflexivity.
Defined.

(** C2 as stated fails: a first-time success ([recovering=False]) enters
    IN_SYNC and keeps the old error message. *)
Lemma first_time_success_keeps_error_message :
  service_settings
    (exec (sync_service_settings_succeeded "e1" false) stale_error_world) =
  [mkEntity "e1" "E1" IN_SYNC "timeout"].
Proof. reflexivity. Qed.

Section Continuations.
Variable get_backend : string -> Backend.

(** The sync task on a row whose adapter raises: the error text is stored
    and the exception leaves the task. *)
Lemma sync_task_backend_error (m : Method) (w : World) (u : string)
    (e : Entity) (exc : Exc) :
  lookup uuid u (service_settings w) = Some e ->
  fsm_source m (state e) = true ->
  sync (get_backend u) = Raises exc ->
  is_backend_error exc = true ->
  transition m (save_error_message (sync_body get_backend)) u w =
  (Raise exc,
   with_service_settings
     (map (fun r => if String.eqb (uuid r) u
                    then set_error_message (exc_text exc) r else r)
        (upsert uuid (set_state (fsm_target m) e) (service_settings w)))
     (with_log (log w ++ [EvTransition u (state e) (fsm_target m);
                          EvBackend op_sync u]) w)).
Proof.
  intros Hl Hs Hsync Hexc. pose proof (lookup_key _ _ _ _ Hl) as Hu. subst u.
  rewrite (transition_run _ _ _ _ _ Hl Hs).
  unfold save_error_message, sync_body. run_monad. rewrite Hsync.
  destruct exc; try discriminate; simpl; unfold with_service_settings, with_log;
    simpl; rewrite <- app_assoc; reflexivity.
Qed.

Lemma lookup_map_error (u msg : string) (t : list Entity) (x : Entity) :
  lookup uuid u t = Some x ->
  lookup uuid u
    (map (fun r => if String.eqb (uuid r) u then set_error_message msg r else r) t)
  = Some (set_error_message msg x).
Proof.
  unfold lookup. induction t as [|r t IH]; simpl; [discriminate|].
  destruct (String.eqb (uuid r) u) eqn:E; simpl.
  - rewrite E. congruence.
  - rewrite E. exact IH.
Qed.

(** C6: when the adapter raises a backend error during [begin_syncing]
    (or [begin_creating]), the job is not queued again and no retry is
    requested -- only the failure continuation is queued -- and once that
    continuation has run the row is ERRED with the text of the error as
    its error message. *)
Theorem backend_error_ends_erred_without_retry
    (w : World) (u : string) (e : Entity) (exc : Exc) (t : Task)
    (recovering : bool) (n : nat) :
  lookup uuid u (service_settings w) = Some e ->
  (t = t_begin_syncing_service_settings u /\
   fsm_source begin_syncing (state e) = true) \/
  (t = t_begin_creating_service_settings u /\
   fsm_source begin_creating (state e) = true) ->
  sync (get_backend u) = Raises exc ->
  is_backend_error exc = true ->
  let failed := mkJob (t_sync_service_settings_failed u recovering) None None 0 in
  let w1 := run_job get_backend
              (mkJob t (Some (t_sync_service_settings_succeeded u recovering))
                       (Some (t_sync_service_settings_failed u recovering)) n) w in
  let w2 := run_job get_backend failed w1 in
  queue w1 = queue w ++ [failed] /\
  filter is_retry (log w1) = filter is_retry (log w) /\
  queue w2 = queue w1 /\
  filter is_retry (log w2) = filter is_retry (log w) /\
  lookup uuid u (service_settings w2) =
  Some (mkEntity (uuid e) (name e) ERRED (exc_text exc)).
Proof.
  intros Hl Ht Hsync Hexc failed w1 w2.
  assert (exists m, fsm_source m (state e) = true /\
                    run_task get_backend t =
                    transition m (save_error_message (sync_body get_backend)) u)
    as [m [Hs Hrun]].
  { destruct Ht as [[-> Hs]|[-> Hs]].
    - now exists begin_syncing.
    - now exists begin_creating. }
  pose proof (sync_task_backend_error m w u e exc Hl Hs Hsync Hexc) as Hstep.
  pose proof (lookup_key _ _ _ _ Hl) as Hu.
  assert (w1 = enqueue failed
                 (with_service_settings
                    (map (fun r => if String.eqb (uuid r) u
                                   then set_error_message (exc_text exc) r else r)
                       (upsert uuid (set_state (fsm_target m) e) (service_settings w)))
                    (with_log (log w ++ [EvTransition u (state e) (fsm_target m);
                                         EvBackend op_sync u]) w))) as Hw1.
  { unfold w1, run_job. cbn [job_task job_link job_link_error job_retries].
    rewrite Hrun, Hstep. destruct exc; try discriminate; reflexivity. }
  assert (lookup uuid u (service_settings w1) =
          Some (set_error_message (exc_text exc) (set_state (fsm_target m) e)))
    as Hl1.
  { rewrite Hw1. simpl. apply lookup_map_error. subst u.
    apply (lookup_upsert uuid (set_state (fsm_target m) e)). }
  assert (Hs1 : fsm_source set_erred
                  (state (set_error_message (exc_text exc)
                            (set_state (fsm_target m) e))) = true) by reflexivity.
  assert (w2 = with_service_settings
                 (upsert uuid
                    (set_state ERRED
                       (set_error_message (exc_text exc) (set_state (fsm_target m) e)))
                    (service_settings w1))
                 (with_log
                    (log w1 ++
                     [EvTransition (uuid e) (fsm_target m) ERRED] ++
                     (if recovering
                      then [EvLog INFO "Failed to recover service settings %s."
                              [name e]]
                      else [])) w1)) as Hw2.
  { unfold w2, run_job, failed. cbn [job_task job_link job_link_error job_retries].
    unfold run_task, sync_service_settings_failed.
    rewrite (transition_run _ _ _ _ _ Hl1 Hs1).
    destruct recovering; run_monad; unfold with_service_settings, with_log; simpl.
    - rewrite <- app_assoc. reflexivity.
    - reflexivity. }
  split; [rewrite Hw1; reflexivity|].
  split.
  { rewrite Hw1. simpl. rewrite filter_app. simpl. now rewrite app_nil_r. }
  split; [rewrite Hw2; reflexivity|].
  split.
  { rewrite Hw2. simpl. rewrite filter_app. rewrite Hw1. simpl.
    rewrite filter_app. simpl. destruct recovering; simpl; now rewrite !app_nil_r. }
  rewrite Hw2. simpl. subst u.
  apply (lookup_upsert uuid
           (set_state ERRED
              (set_error_message (exc_text exc) (set_state (fsm_target m) e)))).
Qed.

End Continuations.

Lemma backend_error_ends_erred_without_retry_witness :
  queue (run_job (fun _ => backend_failing) (syncing_job "e1")
           (world_with SYNCING_SCHEDULED IN_SYNC "")) =
  [mkJob (t_sync_service_settings_failed "e1" false) None None 0] /\
  lookup uuid "e1"
    (service_settings
       (run_job (fun _ => backend_failing)
          (mkJob (t_sync_service_settings_failed "e1" false) None None 0)
          (run_job (fun _ => backend_failing) (syncing_job "e1")
             (world_with SYNCING_SCHEDULED IN_SYNC "")))) =
  Some (mkEntity "e1" "E1" ERRED "timeout").
Proof.
  destruct (backend_error_ends_erred_without_retry (fun _ => backend_failing)
              (world_with SYNCING_SCHEDULED IN_SYNC "") "e1"
              (mkEntity "e1" "E1" SYNCING_SCHEDULED "")
              (ServiceBackendError "timeout")
              (t_begin_syncing_service_settings "e1") false 0
              eq_refl (or_introl (conj eq_refl eq_refl)) eq_refl eq_refl)
    as [Hqueue [_ [_ [_ Hrow]]]].
  split; [exact Hqueue | exact Hrow].
Defined.

(** ** Dependent propagation operations *)

Section Propagation.
Variable get_backend : string -> Backend.

Lemma dangling_task_run (t : Task) (w : World) :
  dangling t w = true ->
  exists fmt args,
    run_task get_backend t w =
    (Ok (PyBool true), with_log (log w ++ [EvLog WARNING fmt args]) w).
Proof.
  destruct t; simpl; try discriminate; intros H.
  - unfold push_ssh_public_key, retry_if_false, push_ssh_public_key_body.
    run_monad.
    destruct (mem_string ssh_public_key_uuid (ssh_public_keys w)); simpl in *.
    + destruct (lookup link_key service_project_link_str (service_project_links w));
        [discriminate|]. simpl. eauto.
    + eauto.
  - unfold remove_ssh_public_key. run_monad.
    destruct (lookup link_key service_project_link_str (service_project_links w));
      [discriminate|]. simpl. eauto.
  - unfold add_user, retry_if_false, add_user_body. run_monad.
    destruct (mem_string user_uuid (users w)); simpl in *.
    + destruct (lookup link_key service_project_link_str (service_project_links w));
        [discriminate|]. simpl. eauto.
    + eauto.
  - unfold remove_user. run_monad.
    destruct (lookup link_key service_project_link_str (service_project_links w));
      [discriminate|]. simpl. eauto.
Qed.

(** C9: a dependent operation whose key, user or link no longer exists
    logs one warning and returns True, leaving everything else as it was:
    no adapter operation is called, no retry is requested, and the worker
    treats the job as a success. *)
Theorem dangling_reference_completes
    (t : Task) (w : World) (lk lke : option Task) (n : nat) :
  dangling t w = true ->
  (exists fmt args,
      run_task get_backend t w =
      (Ok (PyBool true), with_log (log w ++ [EvLog WARNING fmt args]) w)) /\
  backend_calls (log (exec (run_task get_backend t) w)) = backend_calls (log w) /\
  filter is_retry (log (run_job get_backend (mkJob t lk lke n) w)) =
  filter is_retry (log w) /\
  queue (run_job get_backend (mkJob t lk lke n) w) = queue (callback lk w).
Proof.
  intros H. destruct (dangling_task_run t w H) as [fmt [args Hrun]].
  split; [eauto|].
  unfold exec, run_job. cbn [job_task job_link job_link_error job_retries].
  rewrite Hrun. simpl.
  split; [log_filter|].
  destruct lk; simpl; split; try log_filter; reflexivity.
Qed.

Lemma push_key_to_backend_calls (p : string) (spl : ServiceProjectLink) (w : World) :
  backend_calls (log (exec (push_key_to_backend get_backend p spl) w)) =
  backend_calls (log w) ++ [EvBackend op_add_ssh_key (link_key spl)].
Proof.
  unfold exec, push_key_to_backend. run_monad.
  outcome_cases (add_ssh_key (get_backend (link_key spl)) p); log_filter.
Qed.

Lemma add_user_to_backend_calls (p : string) (spl : ServiceProjectLink) (w : World) :
  backend_calls (log (exec (add_user_to_backend get_backend p spl) w)) =
  backend_calls (log w) ++ [EvBackend op_add_user (link_key spl)].
Proof.
  unfold exec, add_user_to_backend. run_monad.
  outcome_cases (backend_add_user (get_backend (link_key spl)) p); log_filter.
Qed.

Lemma retry_if_false_exec (c : M PyVal) (w : World) :
  exec (retry_if_false c) w = exec c w.
Proof.
  unfold exec, retry_if_false, bind. destruct (c w) as [[v|e] w']; simpl.
  - destruct (py_truthy v); reflexivity.
  - reflexivity.
Qed.

Lemma push_in_sync_acts (p l : string) (spl : ServiceProjectLink) (w : World) :
  lookup link_key l (service_project_links w) = Some spl ->
  mem_string p (ssh_public_keys w) = true ->
  state (link spl) = IN_SYNC ->
  acts get_backend (t_push_ssh_public_key p l) op_add_ssh_key l w.
Proof.
  intros Hl Hm Hs. pose proof (lookup_key _ _ _ _ Hl) as Hk.
  subst l.
  unfold acts, run_task, push_ssh_public_key. rewrite retry_if_false_exec.
  rewrite <- (push_key_to_backend_calls p spl w).
  unfold exec, push_ssh_public_key_body, bind, get_world.
  rewrite Hm, Hl, Hs. reflexivity.
Qed.

Lemma add_user_in_sync_acts (p l : string) (spl : ServiceProjectLink) (w : World) :
  lookup link_key l (service_project_links w) = Some spl ->
  mem_string p (users w) = true ->
  state (link spl) = IN_SYNC ->
  acts get_backend (t_add_user p l) op_add_user l w.
Proof.
  intros Hl Hm Hs. pose proof (lookup_key _ _ _ _ Hl) as Hk.
  subst l.
  unfold acts, run_task, add_user. rewrite retry_if_false_exec.
  rewrite <- (add_user_to_backend_calls p spl w).
  unfold exec, add_user_body, bind, get_world.
  rewrite Hm, Hl, Hs. reflexivity.
Qed.

Lemma push_not_ready_defers (p l : string) (spl : ServiceProjectLink) (w : World) :
  lookup link_key l (service_project_links w) = Some spl ->
  mem_string p (ssh_public_keys w) = true ->
  state (link spl) <> IN_SYNC ->
  state (link spl) <> ERRED ->
  defers get_backend (t_push_ssh_public_key p l) w.
Proof.
  intros Hl Hm Hs He.
  apply state_eqb_neq in Hs. apply state_eqb_neq in He.
  assert (run_task get_backend (t_push_ssh_public_key p l) w =
          (Raise Retry,
           with_log
             (log w ++
              [EvLog DEBUG
                 "Not pushing public keys for service project link %s which is in state %s."
                 [l; state_display (state (link spl))];
               EvLog DEBUG
                 "Rescheduling synchronisation of keys for link %s in state %s."
                 [l; state_display (state (link spl))]]) w)) as Hrun.
  { unfold run_task, push_ssh_public_key, retry_if_false, push_ssh_public_key_body.
    run_monad. rewrite Hm, Hl. simpl. rewrite Hs, He. simpl.
    unfold with_log. simpl. rewrite <- app_assoc. reflexivity. }
  unfold defers, result, exec, run_job.
  cbn [job_task job_link job_link_error job_retries]. rewrite Hrun. simpl.
  split; [reflexivity|]. split; [log_filter|].
  intros lk lke n Hn. apply Nat.ltb_lt in Hn. rewrite Hn. reflexivity.
Qed.

Lemma add_user_not_ready_defers (p l : string) (spl : ServiceProjectLink) (w : World) :
  lookup link_key l (service_project_links w) = Some spl ->
  mem_string p (users w) = true ->
  state (link spl) <> IN_SYNC ->
  state (link spl) <> ERRED ->
  defers get_backend (t_add_user p l) w.
Proof.
  intros Hl Hm Hs He.
  apply state_eqb_neq in Hs. apply state_eqb_neq in He.
  assert (run_task get_backend (t_add_user p l) w =
          (Raise Retry,
           with_log
             (log w ++
              [EvLog DEBUG
                 "Not adding users for service project link %s which is in state %s."
                 [l; state_display (state (link spl))];
               EvLog DEBUG
                 "Rescheduling synchronisation of users for link %s in state %s."
                 [l; state_display (state (link spl))]]) w)) as Hrun.
  { unfold run_task, add_user, retry_if_false, add_user_body.
    run_monad. rewrite Hm, Hl. simpl. rewrite Hs, He. simpl.
    unfold with_log. simpl. rewrite <- app_assoc. reflexivity. }
  unfold defers, result, exec, run_job.
  cbn [job_task job_link job_link_error job_retries]. rewrite Hrun. simpl.
  split; [reflexivity|]. split; [log_filter|].
  intros lk lke n Hn. apply Nat.ltb_lt in Hn. rewrite Hn. reflexivity.
Qed.

Lemma remove_ssh_public_key_acts (p l : string) (spl : ServiceProjectLink) (w : World) :
  lookup link_key l (service_project_links w) = Some spl ->
  acts get_backend (t_remove_ssh_public_key p l) op_remove_ssh_key l w.
Proof.
  intros Hl. pose proof (lookup_key _ _ _ _ Hl) as Hk.
  unfold acts, exec, run_task, remove_ssh_public_key. run_monad. rewrite Hl.
  rewrite Hk.
  outcome_cases (remove_ssh_key (get_backend l) p); log_filter.
Qed.

Lemma remove_user_acts (p l : string) (spl : ServiceProjectLink) (w : World) :
  lookup link_key l (service_project_links w) = Some spl ->
  acts get_backend (t_remove_user p l) op_remove_user l w.
Proof.
  intros Hl. pose proof (lookup_key _ _ _ _ Hl) as Hk.
  unfold acts, exec, run_task, remove_user. run_monad. rewrite Hl.
  rewrite Hk.
  outcome_cases (backend_remove_user (get_backend l) p); log_filter.
Qed.

(** C1, as the code has it: pushing a key and adding a user call the
    adapter when the link is IN_SYNC, and in every state other than
    IN_SYNC and ERRED they call nothing and ask to be run again; removing
    a key and removing a user look at no state and call the adapter
    whatever the state of the link. *)
Theorem propagation_respects_link_state
    (w : World) (k u l : string) (spl : ServiceProjectLink) :
  lookup link_key l (service_project_links w) = Some spl ->
  (mem_string k (ssh_public_keys w) = true ->
   (state (link spl) = IN_SYNC ->
    acts get_backend (t_push_ssh_public_key k l) op_add_ssh_key l w) /\
   (state (link spl) <> IN_SYNC -> state (link spl) <> ERRED ->
    defers get_backend (t_push_ssh_public_key k l) w)) /\
  (mem_string u (users w) = true ->
   (state (link spl) = IN_SYNC ->
    acts get_backend (t_add_user u l) op_add_user l w) /\
   (state (link spl) <> IN_SYNC -> state (link spl) <> ERRED ->
    defers get_backend (t_add_user u l) w)) /\
  acts get_backend (t_remove_ssh_public_key k l) op_remove_ssh_key l w /\
  acts get_backend (t_remove_user u l) op_remove_user l w.
Proof.
  intros Hl. split; [|split; [|split]].
  - intros Hm. split.
    + intros Hs. now apply push_in_sync_acts with spl.
    + intros Hs He. now apply push_not_ready_defers with spl.
  - intros Hm. split.
    + intros Hs. now apply add_user_in_sync_acts with spl.
    + intros Hs He. now apply add_user_not_ready_defers with spl.
  - now apply remove_ssh_public_key_acts with spl.
  - now apply remove_user_acts with spl.
Qed.

(** The sibling of [remove_user]: a backend error while removing a key is
    caught, logged as a warning, and the task returns. *)
Lemma remove_ssh_public_key_backend_error_logged
    (p l msg : string) (spl : ServiceProjectLink) (w : World) :
  lookup link_key l (service_project_links w) = Some spl ->
  remove_ssh_key (get_backend l) p = Raises (ServiceBackendError msg) ->
  remove_ssh_public_key get_backend p l w =
  (Ok PyNone,
   with_log
     (log w ++
      [EvBackend op_remove_ssh_key l;
       EvLog WARNING "Failed to remove SSH key %s from service project link %s."
         [p; l]]) w).
Proof.
  intros Hl Hb. pose proof (lookup_key _ _ _ _ Hl) as Hk.
  unfold remove_ssh_public_key. run_monad. rewrite Hl, Hk, Hb. simpl.
  unfold with_log. simpl. rewrite <- app_assoc. reflexivity.
Qed.

Lemma push_ssh_public_key_backend_error_logged
    (p l msg : string) (spl : ServiceProjectLink) (w : World) :
  lookup link_key l (service_project_links w) = Some spl ->
  mem_string p (ssh_public_keys w) = true ->
  state (link spl) = IN_SYNC ->
  add_ssh_key (get_backend l) p = Raises (ServiceBackendError msg) ->
  push_ssh_public_key get_backend p l w =
  (Ok (PyBool true),
   with_log
     (log w ++
      [EvBackend op_add_ssh_key l;
       EvLog WARNING "Failed to push SSH key %s to service project link %s."
         [p; l]]) w).
Proof.
  intros Hl Hm Hs Hb. pose proof (lookup_key _ _ _ _ Hl) as Hk.
  unfold push_ssh_public_key, retry_if_false, push_ssh_public_key_body.
  run_monad. rewrite Hm, Hl. simpl. rewrite Hs. simpl.
  unfold push_key_to_backend. run_monad. rewrite Hk, Hb. simpl.
  unfold with_log. simpl. rewrite <- app_assoc. reflexivity.
Qed.

(** C8 where the code departs from it: when the adapter fails with a
    backend error while a user is removed, the error is not caught: it
    leaves the task, so the task fails, and no warning is logged. *)
Theorem remove_user_backend_error_escapes
    (p l msg : string) (spl : ServiceProjectLink) (w : World) :
  lookup link_key l (service_project_links w) = Some spl ->
  backend_remove_user (get_backend l) p = Raises (ServiceBackendError msg) ->
  run_task get_backend (t_remove_user p l) w =
  (Raise (ServiceBackendError msg),
   with_log (log w ++ [EvBackend op_remove_user l]) w) /\
  filter is_warning (log (exec (run_task get_backend (t_remove_user p l)) w)) =
  filter is_warning (log w).
Proof.
  intros Hl Hb. pose proof (lookup_key _ _ _ _ Hl) as Hk.
  assert (run_task get_backend (t_remove_user p l) w =
          (Raise (ServiceBackendError msg),
           with_log (log w ++ [EvBackend op_remove_user l]) w)) as Hrun.
  { unfold run_task, remove_user. run_monad. rewrite Hl, Hk, Hb. reflexivity. }
  split; [exact Hrun|].
  unfold exec. rewrite Hrun. simpl. rewrite filter_app. simpl.
  now rewrite app_nil_r.
Qed.

End Propagation.

Lemma dangling_reference_completes_witness :
  backend_calls
    (log (exec (run_task (fun _ => backend_ok) (t_push_ssh_public_key "k9" "l1"))
            (world_with IN_SYNC IN_SYNC ""))) = [] /\
  queue (run_job (fun _ => backend_ok)
           (mkJob (t_push_ssh_public_key "k9" "l1") None None 0)
           (world_with IN_SYNC IN_SYNC "")) = [].
Proof.
  destruct (dangling_reference_completes (fun _ => backend_ok)
              (t_push_ssh_public_key "k9" "l1") (world_with IN_SYNC IN_SYNC "")
              None None 0 eq_refl)
    as [_ [Hcalls [_ Hqueue]]].
  split; [exact Hcalls | exact Hqueue].
Defined.

Lemma propagation_respects_link_state_witness :
  defers (fun _ => backend_ok) (t_push_ssh_public_key "k1" "l1")
    (world_with IN_SYNC SYNCING "") /\
  defers (fun _ => backend_ok) (t_add_user "u1" "l1")
    (world_with IN_SYNC SYNCING "") /\
  acts (fun _ => backend_ok) (t_remove_ssh_public_key "k1" "l1")
    op_remove_ssh_key "l1" (world_with IN_SYNC SYNCING "") /\
  acts (fun _ => backend_ok) (t_remove_user "u1" "l1")
    op_remove_user "l1" (world_with IN_SYNC SYNCING "").
Proof.
  destruct (propagation_respects_link_state (fun _ => backend_ok)
              (world_with IN_SYNC SYNCING "") "k1" "u1" "l1"
              (mkLink (mkEntity "l1" "L1" SYNCING "") "e1") eq_refl)
    as [Hpush [Hadd [Hrk Hru]]].
  split; [apply Hpush; [reflexivity | discriminate | discriminate]|].
  split; [apply Hadd; [reflexivity | discriminate | discriminate]|].
  split; assumption.
Defined.

(** C1 as stated fails: removing a user calls the adapter although the
    link is SYNCING, not IN_SYNC. *)
Lemma removal_acts_on_syncing_link :
  lookup link_key "l1" (service_project_links (world_with IN_SYNC SYNCING "")) =
  Some (mkLink (mkEntity "l1" "L1" SYNCING "") "e1") /\
  backend_calls
    (log (exec (run_task (fun _ => backend_ok) (t_remove_user "u1" "l1"))
            (world_with IN_SYNC SYNCING ""))) =
  [EvBackend op_remove_user "l1"].
Proof. split; reflexivity. Qed.

(** On an ERRED link the push logs that it is not pushing and then goes
    on to the adapter all the same. *)
Example push_on_erred_link_reaches_backend :
  run_task (fun _ => backend_ok) (t_push_ssh_public_key "k1" "l1")
    (world_with IN_SYNC ERRED "") =
  (Ok (PyBool true),
   with_log
     [EvLog DEBUG
        "Not pushing public keys for service project link %s which is in state %s."
        ["l1"; "ERRED"];
      EvBackend op_add_ssh_key "l1";
      EvLog INFO "SSH key %s has been pushed to service project link %s."
        ["k1"; "l1"]]
     (world_with IN_SYNC ERRED "")).
Proof. reflexivity. Qed.

Lemma remove_user_backend_error_escapes_witness :
  run_task (fun _ => backend_failing) (t_remove_user "u1" "l1")
    (world_with IN_SYNC IN_SYNC "") =
  (Raise (ServiceBackendError "timeout"),
   with_log [EvBackend op_remove_user "l1"] (world_with IN_SYNC IN_SYNC "")) /\
  filter is_warning
    (log (exec (run_task (fun _ => backend_failing) (t_remove_user "u1" "l1"))
            (world_with IN_SYNC IN_SYNC ""))) = [].
Proof.
  apply (remove_user_backend_error_escapes (fun _ => backend_failing)
           "u1" "l1" "timeout" (mkLink (mkEntity "l1" "L1" IN_SYNC "") "e1")
           (world_with IN_SYNC IN_SYNC "")); reflexivity.
Defined.

(** ** The periodic sweep *)

Lemma for_each_cons {A} (x : A) (rest : list A) (body : A -> M unit) (w : World) :
  for_each (x :: rest) body w =
  match body x w with
  | (Ok _, w') => for_each rest body w'
  | (Raise e, w') => (Raise e, w')
  end.
Proof. reflexivity. Qed.

(** One turn of the loop on an IN_SYNC row: the row is moved to
    SYNCING_SCHEDULED and saved, and only then is the job submitted. *)
Lemma sync_one_in_sync (obj : Entity) (w : World) :
  state obj = IN_SYNC ->
  sync_one obj w =
  (Ok tt,
   with_queue (queue w ++ [syncing_job (uuid obj)])
     (with_log
        (log w ++ [EvTransition (uuid obj) IN_SYNC SYNCING_SCHEDULED;
                   EvSubmit (syncing_job (uuid obj))])
        (with_service_settings
           (upsert uuid (set_state SYNCING_SCHEDULED obj) (service_settings w)) w))).
Proof.
  intros Hs. unfold sync_one, fsm_call. rewrite Hs. run_monad.
  unfold with_queue, with_log, with_service_settings. simpl.
  rewrite <- app_assoc. reflexivity.
Qed.

(** One turn on a CREATION_SCHEDULED row: the job is submitted and the
    row is not touched. *)
Lemma sync_one_creation_scheduled (obj : Entity) (w : World) :
  state obj = CREATION_SCHEDULED ->
  sync_one obj w =
  (Ok tt,
   with_queue (queue w ++ [creating_job (uuid obj)])
     (with_log (log w ++ [EvSubmit (creating_job (uuid obj))]) w)).
Proof.
  intros Hs. unfold sync_one. rewrite Hs. reflexivity.
Qed.

Lemma sync_one_effect (obj : Entity) (w : World) :
  fst (sync_one obj w) = Ok tt /\
  queue (snd (sync_one obj w)) = queue w ++ jobs_for obj /\
  service_settings (snd (sync_one obj w)) = sweep_rows [obj] (service_settings w).
Proof.
  unfold jobs_for, sweep_rows. simpl.
  destruct (state_eqb (state obj) IN_SYNC) eqn:E1.
  - apply state_eqb_eq in E1. rewrite (sync_one_in_sync obj w E1). now simpl.
  - destruct (state_eqb (state obj) CREATION_SCHEDULED) eqn:E2.
    + apply state_eqb_eq in E2. rewrite (sync_one_creation_scheduled obj w E2).
      now simpl.
    + unfold sync_one. rewrite E1, E2. simpl. now rewrite app_nil_r.
Qed.

Lemma sync_loop_effect (sel : list Entity) (w : World) :
  fst (for_each sel sync_one w) = Ok tt /\
  queue (snd (for_each sel sync_one w)) = queue w ++ flat_map jobs_for sel /\
  service_settings (snd (for_each sel sync_one w)) =
  sweep_rows sel (service_settings w).
Proof.
  revert w. induction sel as [|obj sel IH]; intros w.
  - simpl. now rewrite app_nil_r.
  - rewrite for_each_cons.
    destruct (sync_one_effect obj w) as [Hok [Hq Ht]].
    destruct (sync_one obj w) as [[[]|exc] w1]; simpl in *; [|discriminate].
    destruct (IH w1) as [Hok' [Hq' Ht']].
    rewrite Hok', Hq', Ht', Hq, Ht. now rewrite app_assoc.
Qed.

Lemma sync_service_settings_effect (a : UuidsArg) (w : World) :
  result (sync_service_settings a) w = Ok PyNone /\
  queue (exec (sync_service_settings a) w) =
  queue w ++ flat_map jobs_for (select a IN_SYNC (service_settings w)) /\
  service_settings (exec (sync_service_settings a) w) =
  sweep_rows (select a IN_SYNC (service_settings w)) (service_settings w).
Proof.
  unfold result, exec, sync_service_settings, bind, get_world.
  destruct (sync_loop_effect (select a IN_SYNC (service_settings w)) w)
    as [Hok [Hq Ht]].
  destruct (for_each (select a IN_SYNC (service_settings w)) sync_one w)
    as [[[]|exc] w1]; simpl in *; [|discriminate].
  now rewrite Hq, Ht.
Qed.

Lemma jobs_for_in_sync_rows (t : list Entity) :
  flat_map jobs_for (filter (fun e => state_eqb (state e) IN_SYNC) t) =
  map (fun e => syncing_job (uuid e))
      (filter (fun e => state_eqb (state e) IN_SYNC) t).
Proof.
  induction t as [|r t IH]; simpl; [reflexivity|].
  destruct (state_eqb (state r) IN_SYNC) eqn:E; [|exact IH].
  simpl. unfold jobs_for at 1. rewrite E. simpl. now rewrite IH.
Qed.

(** C3, as the code has it: without uuids the sweep selects the IN_SYNC
    rows only and submits a begin-syncing job for each, in table order; a
    CREATION_SCHEDULED row gets its begin-creating job only from a sweep
    that was given its uuid (and so does an IN_SYNC row its begin-syncing
    job). *)
Theorem sweep_submissions (w : World) (a : UuidsArg) (e : Entity) :
  In e (service_settings w) ->
  (truthy a = false ->
   queue (exec (sync_service_settings a) w) =
   queue w ++ map (fun r => syncing_job (uuid r))
                  (filter (fun r => state_eqb (state r) IN_SYNC)
                          (service_settings w))) /\
  (truthy a = true -> mem_string (uuid e) (as_list a) = true ->
   state e = CREATION_SCHEDULED ->
   In (creating_job (uuid e)) (queue (exec (sync_service_settings a) w))) /\
  (truthy a = true -> mem_string (uuid e) (as_list a) = true ->
   state e = IN_SYNC ->
   In (syncing_job (uuid e)) (queue (exec (sync_service_settings a) w))).
Proof.
  intros Hin.
  destruct (sync_service_settings_effect a w) as [_ [Hq _]]. rewrite Hq.
  split; [|split].
  - intros Ha. unfold select. rewrite Ha. now rewrite jobs_for_in_sync_rows.
  - intros Ha Hm Hs. apply in_or_app. right. apply in_flat_map.
    exists e. split.
    + unfold select. rewrite Ha. apply filter_In. now split.
    + unfold jobs_for. rewrite Hs. simpl. now left.
  - intros Ha Hm Hs. apply in_or_app. right. apply in_flat_map.
    exists e. split.
    + unfold select. rewrite Ha. apply filter_In. now split.
    + unfold jobs_for. rewrite Hs. simpl. now left.
Qed.

Lemma sweep_submissions_witness :
  queue (exec (sync_service_settings NoUuids) (world_with IN_SYNC IN_SYNC "")) =
  [syncing_job "e1"] /\
  In (creating_job "e1")
     (queue (exec (sync_service_settings (OneUuid "e1"))
               (world_with CREATION_SCHEDULED IN_SYNC ""))).
Proof.
  split.
  - apply (sweep_submissions (world_with IN_SYNC IN_SYNC "") NoUuids
             (mkEntity "e1" "E1" IN_SYNC "")); [simpl; now left | reflexivity].
  - apply (sweep_submissions (world_with CREATION_SCHEDULED IN_SYNC "")
             (OneUuid "e1") (mkEntity "e1" "E1" CREATION_SCHEDULED ""));
      [simpl; now left | reflexivity | reflexivity | reflexivity].
Defined.

(** C3 as stated fails: a sweep without uuids submits nothing for a
    CREATION_SCHEDULED row, and leaves the world as it was. *)
Lemma periodic_sweep_skips_creation_scheduled :
  exec (sync_service_settings NoUuids) (world_with CREATION_SCHEDULED IN_SYNC "") =
  world_with CREATION_SCHEDULED IN_SYNC "".
Proof. reflexivity. Qed.

Lemma sweep_rows_cons (obj : Entity) (sel t : list Entity) :
  sweep_rows (obj :: sel) t =
  sweep_rows sel
    (if state_eqb (state obj) IN_SYNC
     then upsert uuid (set_state SYNCING_SCHEDULED obj) t else t).
Proof. reflexivity. Qed.

Lemma marked_step (u : string) (obj : Entity) (t : list Entity) :
  marked u t ->
  marked u (upsert uuid (set_state SYNCING_SCHEDULED obj) t).
Proof.
  intros Hm r Hin Hu.
  destruct (String.eqb (uuid r) (uuid obj)) eqn:E.
  - apply String.eqb_eq in E.
    rewrite (upsert_rows uuid (set_state SYNCING_SCHEDULED obj) t r Hin E).
    reflexivity.
  - apply String.eqb_neq in E. apply Hm; [|exact Hu].
    now apply (upsert_other_rows uuid (set_state SYNCING_SCHEDULED obj) t r).
Qed.

Lemma marked_preserved (u : string) (sel t : list Entity) :
  marked u t -> marked u (sweep_rows sel t).
Proof.
  revert t. induction sel as [|obj sel IH]; intros t Hm; [exact Hm|].
  rewrite sweep_rows_cons. apply IH.
  destruct (state_eqb (state obj) IN_SYNC); [now apply marked_step | exact Hm].
Qed.

Lemma marked_after_turn (obj : Entity) (t : list Entity) :
  marked (uuid obj) (upsert uuid (set_state SYNCING_SCHEDULED obj) t).
Proof.
  intros r Hin Hu.
  now rewrite (upsert_rows uuid (set_state SYNCING_SCHEDULED obj) t r Hin Hu).
Qed.

Lemma marked_established (e : Entity) (sel t : list Entity) :
  In e sel -> state e = IN_SYNC -> marked (uuid e) (sweep_rows sel t).
Proof.
  revert t. induction sel as [|obj sel IH]; intros t Hin Hs; [contradiction|].
  rewrite sweep_rows_cons. destruct Hin as [->|Hin].
  - rewrite Hs. simpl. apply marked_preserved. apply marked_after_turn.
  - now apply IH.
Qed.




Lemma select_filter (a : UuidsArg) (d : SynchronizationStates) (t : list Entity) :
  select a d t = filter (selects a d) t.
Proof.
  unfold select, selects. destruct (truthy a); reflexivity.
Qed.

Lemma unique_key_row {A} (key : A -> string) (t : list A) (x y : A) :
  NoDup (map key t) -> In x t -> In y t -> key x = key y -> x = y.
Proof.
  induction t as [|r t IH]; simpl; intros Hnd Hx Hy Hk; [contradiction|].
  inversion Hnd as [|? ? Hnotin Hnd']; subst.
  destruct Hx as [->|Hx]; destruct Hy as [->|Hy].
  - reflexivity.
  - exfalso. apply Hnotin. rewrite Hk. now apply in_map.
  - exfalso. apply Hnotin. rewrite <- Hk. now apply in_map.
  - now apply IH.
Qed.

Lemma upsert_present {A} (key : A -> string) (x y : A) (t : list A) :
  In y t -> key y = key x ->
  upsert key x t = map (fun r => if String.eqb (key r) (key x) then x else r) t.
Proof.
  intros Hin Hk. unfold upsert.
  destruct (lookup key (key x) t) as [z|] eqn:E; [reflexivity|].
  exfalso. now apply (lookup_none key (key x) t y E Hin).
Qed.

Lemma mark_hit_uuid (done : list Entity) (r : Entity) :
  uuid (mark_hit done r) = uuid r.
Proof. unfold mark_hit. now destruct (hit done r). Qed.

Lemma hit_snoc (done : list Entity) (o r : Entity) :
  hit (done ++ [o]) r =
  hit done r || (String.eqb (uuid o) (uuid r) && state_eqb (state o) IN_SYNC).
Proof.
  unfold hit. rewrite existsb_app. simpl. now rewrite orb_false_r.
Qed.

(** One turn of the loop, seen on the whole table. *)
Lemma sweep_turn_map (t done : list Entity) (o : Entity) :
  NoDup (map uuid t) -> In o t ->
  (if state_eqb (state o) IN_SYNC
   then upsert uuid (set_state SYNCING_SCHEDULED o) (map (mark_hit done) t)
   else map (mark_hit done) t) =
  map (mark_hit (done ++ [o])) t.
Proof.
  intros Hnd Ho. destruct (state_eqb (state o) IN_SYNC) eqn:Es.
  - rewrite (upsert_present uuid (set_state SYNCING_SCHEDULED o) (mark_hit done o)).
    + rewrite map_map. apply map_ext_in. intros r Hr.
      rewrite mark_hit_uuid. simpl.
      unfold mark_hit at 2. rewrite hit_snoc, Es, andb_true_r.
      destruct (String.eqb (uuid r) (uuid o)) eqn:Ek.
      * apply String.eqb_eq in Ek.
        assert (r = o) as -> by now apply (unique_key_row uuid t).
        rewrite String.eqb_refl, orb_true_r. reflexivity.
      * assert (String.eqb (uuid o) (uuid r) = false) as ->.
        { apply String.eqb_neq. apply String.eqb_neq in Ek. congruence. }
        rewrite orb_false_r. reflexivity.
    + apply (in_map (mark_hit done)). exact Ho.
    + exact (mark_hit_uuid done o).
  - apply map_ext. intros r. unfold mark_hit. rewrite hit_snoc, Es.
    now rewrite andb_false_r, orb_false_r.
Qed.

Lemma sweep_rows_map (t sel done : list Entity) :
  NoDup (map uuid t) -> (forall o, In o sel -> In o t) ->
  sweep_rows sel (map (mark_hit done) t) = map (mark_hit (done ++ sel)) t.
Proof.
  intros Hnd. revert done. induction sel as [|o sel IH]; intros done Hsub.
  - now rewrite app_nil_r.
  - rewrite sweep_rows_cons, sweep_turn_map; [|exact Hnd|apply Hsub; now left].
    rewrite IH; [|intros o' Ho'; apply Hsub; now right].
    now rewrite <- app_assoc.
Qed.

Lemma hit_selected (a : UuidsArg) (t : list Entity) (r : Entity) :
  NoDup (map uuid t) -> In r t ->
  hit (filter (selects a IN_SYNC) t) r =
  selects a IN_SYNC r && state_eqb (state r) IN_SYNC.
Proof.
  intros Hnd Hr. unfold hit.
  destruct (selects a IN_SYNC r && state_eqb (state r) IN_SYNC) eqn:E.
  - apply existsb_exists. exists r. apply andb_prop in E. destruct E as [E1 E2].
    split; [apply filter_In; now split|]. now rewrite String.eqb_refl, E2.
  - destruct (existsb _ _) eqn:Ex; [|reflexivity].
    apply existsb_exists in Ex. destruct Ex as [o [Ho Hoo]].
    apply filter_In in Ho. destruct Ho as [Ho Hsel].
    apply andb_prop in Hoo. destruct Hoo as [Hk Hs]. apply String.eqb_eq in Hk.
    assert (o = r) as -> by now apply (unique_key_row uuid t).
    rewrite Hsel, Hs in E. discriminate.
Qed.

(** With distinct uuids the loop of the sweep is a map over the table. *)
Lemma sweep_rows_swept (a : UuidsArg) (t : list Entity) :
  NoDup (map uuid t) ->
  sweep_rows (select a IN_SYNC t) t = map (swept a) t.
Proof.
  intros Hnd. rewrite select_filter.
  assert (Hid : map (mark_hit []) t = t).
  { rewrite <- (map_id t) at 2. now apply map_ext. }
  rewrite <- Hid at 2.
  rewrite sweep_rows_map;
    [|exact Hnd|intros o Ho; apply filter_In in Ho; tauto].
  apply map_ext_in. intros r Hr. unfold mark_hit, swept. simpl.
  now rewrite hit_selected.
Qed.










(** ** Recovery of erred service settings *)

Lemma recover_one_effect (s : Entity) (w : World) :
  fst (recover_one s w) = Ok tt /\
  queue (snd (recover_one s w)) =
  queue w ++ (if state_eqb (state s) ERRED then [recovering_job (uuid s)] else []) /\
  service_settings (snd (recover_one s w)) = service_settings w.
Proof.
  unfold recover_one. destruct (state_eqb (state s) ERRED); simpl.
  - repeat split.
  - now rewrite app_nil_r.
Qed.

Lemma recover_loop_effect (sel : list Entity) (w : World) :
  fst (for_each sel recover_one w) = Ok tt /\
  queue (snd (for_each sel recover_one w)) =
  queue w ++ map (fun s => recovering_job (uuid s))
                 (filter (fun s => state_eqb (state s) ERRED) sel) /\
  service_settings (snd (for_each sel recover_one w)) = service_settings w.
Proof.
  revert w. induction sel as [|s sel IH]; intros w.
  - simpl. now rewrite app_nil_r.
  - rewrite for_each_cons.
    destruct (recover_one_effect s w) as [Hok [Hq Ht]].
    destruct (recover_one s w) as [[[]|exc] w1]; simpl in *; [|discriminate].
    destruct (IH w1) as [Hok' [Hq' Ht']].
    rewrite Hok', Hq', Ht', Hq, Ht.
    destruct (state_eqb (state s) ERRED); simpl.
    + now rewrite <- app_assoc.
    + now rewrite app_nil_r.
Qed.


Section Recovery.
Variable get_backend : string -> Backend.





End Recovery.



(** ** Recovery of one link *)

Section PerLink.
Variable get_backend : string -> Backend.

(** The probe writes no table and submits nothing; it only calls the
    adapter's ping or session operations. *)
Lemma probe_effect (spl : ServiceProjectLink) (settings : Entity)
    (is_iaas : bool) (w : World) :
  let wp := snd (probe get_backend spl settings is_iaas w) in
  (exists calls, log wp = log w ++ calls /\ Forall direct_heal calls) /\
  service_settings wp = service_settings w /\
  clouds wp = clouds w /\
  service_project_links wp = service_project_links w /\
  queue wp = queue w.
Proof.
  unfold probe. run_monad. destruct is_iaas.
  - destruct (state_eqb (state (link spl)) ERRED);
      destruct (state_eqb (state settings) ERRED); simpl;
      try outcome_cases (create_session_membership (get_backend (link_key spl)));
      try outcome_cases (create_session_keystone (get_backend (link_key spl)));
      (split; [|repeat split]);
      first [ exists []; split; [now rewrite app_nil_r | constructor]
            | eexists; split; [rewrite <- ?app_assoc; reflexivity|];
              repeat constructor; discriminate ].
  - destruct (ping (get_backend (link_key spl))) as [[|]|[]]; simpl;
      (split; [|repeat split]);
      eexists; (split; [reflexivity|]); repeat constructor; discriminate.
Qed.

Lemma heal_link_run (spl : ServiceProjectLink) (w : World) :
  heal_link spl w =
  (Ok tt,
   if state_eqb (state (link spl)) ERRED
   then with_links
          (upsert link_key (set_link (set_state IN_SYNC (link spl)) spl)
             (service_project_links w))
          (with_log (log w ++ [EvTransition (link_key spl) ERRED IN_SYNC]) w)
   else w).
Proof.
  unfold heal_link, fsm_call.
  destruct (state_eqb (state (link spl)) ERRED) eqn:E; [|reflexivity].
  apply state_eqb_eq in E. rewrite E. reflexivity.
Qed.

Lemma heal_settings_run (m : Model) (settings : Entity) (w : World) :
  heal_settings m settings w =
  (Ok tt,
   if state_eqb (state settings) ERRED
   then snd (save m (set_state IN_SYNC settings)
               (with_log (log w ++ [EvTransition (uuid settings) ERRED IN_SYNC]) w))
   else w).
Proof.
  unfold heal_settings, fsm_call.
  destruct (state_eqb (state settings) ERRED) eqn:E; [|reflexivity].
  apply state_eqb_eq in E. rewrite E. reflexivity.
Qed.

Lemma probe_by_ping (spl : ServiceProjectLink) (settings : Entity) (w : World) :
  result (probe get_backend spl settings false) w = Ok true <->
  ping (get_backend (link_key spl)) = Returns true.
Proof.
  unfold result, probe. run_monad.
  destruct (ping (get_backend (link_key spl))) as [[|]|[]]; simpl;
    split; intros H; first [reflexivity | discriminate].
Qed.

Lemma probe_by_sessions (spl : ServiceProjectLink) (settings : Entity) (w : World) :
  result (probe get_backend spl settings true) w = Ok true <->
  (state (link spl) = ERRED ->
   create_session_membership (get_backend (link_key spl)) = Returns tt) /\
  (state settings = ERRED ->
   create_session_keystone (get_backend (link_key spl)) = Returns tt).
Proof.
  unfold result, probe. run_monad.
  erred_cases (state (link spl)); erred_cases (state settings); simpl;
    try outcome_cases (create_session_membership (get_backend (link_key spl)));
    try outcome_cases (create_session_keystone (get_backend (link_key spl)));
    intuition congruence.
Qed.

Lemma recover_erred_service_run
    (w : World) (l : string) (is_iaas : bool) (spl : ServiceProjectLink)
    (settings : Entity) :
  lookup link_key l (service_project_links w) = Some spl ->
  lookup uuid (settings_ref spl) (objects (settings_model is_iaas) w) =
  Some settings ->
  recover_erred_service get_backend l is_iaas w =
  match probe get_backend spl settings is_iaas w with
  | (Ok true, wp) =>
      (Ok PyNone,
       snd (heal_settings (settings_model is_iaas) settings (snd (heal_link spl wp))))
  | (Ok false, wp) =>
      (Ok PyNone,
       with_log
         (log wp ++ [EvLog INFO "Failed to recover service settings %s."
                       [name settings]]) wp)
  | (Raise e, wp) => (Raise e, wp)
  end.
Proof.
  intros Hl Hset. unfold recover_erred_service. unfold bind at 1, get_world.
  rewrite Hl. cbv beta iota zeta. rewrite Hset. cbv beta iota zeta.
  unfold bind.
  destruct (probe get_backend spl settings is_iaas w) as [[[|]|exc] wp];
    [|reflexivity|reflexivity].
  rewrite heal_link_run. cbn [snd]. rewrite heal_settings_run. reflexivity.
Qed.

(** C10: the per-link recovery task submits nothing, never calls the
    adapter's sync, and the only transitions it makes go from ERRED
    straight to IN_SYNC.  When the probe succeeds (the ping returns true;
    for an IaaS link, no session call made for an ERRED row fails), the
    link and its settings row are each moved to IN_SYNC if they were
    ERRED and left as they were otherwise; when the probe does not
    succeed no table changes. *)
Theorem per_link_recovery
    (w : World) (l : string) (is_iaas : bool) (spl : ServiceProjectLink)
    (settings : Entity) :
  lookup link_key l (service_project_links w) = Some spl ->
  lookup uuid (settings_ref spl) (objects (settings_model is_iaas) w) =
  Some settings ->
  ((exists new,
       log (exec (recover_erred_service get_backend l is_iaas) w) = log w ++ new /\
       Forall direct_heal new) /\
   queue (exec (recover_erred_service get_backend l is_iaas) w) = queue w) /\
  (result (probe get_backend spl settings is_iaas) w = Ok true ->
   lookup link_key l
     (service_project_links (exec (recover_erred_service get_backend l is_iaas) w)) =
   Some (if state_eqb (state (link spl)) ERRED
         then set_link (set_state IN_SYNC (link spl)) spl else spl) /\
   lookup uuid (settings_ref spl)
     (objects (settings_model is_iaas)
        (exec (recover_erred_service get_backend l is_iaas) w)) =
   Some (if state_eqb (state settings) ERRED
         then set_state IN_SYNC settings else settings) /\
   (state (link spl) <> ERRED ->
    service_project_links (exec (recover_erred_service get_backend l is_iaas) w) =
    service_project_links w) /\
   (state settings <> ERRED ->
    objects (settings_model is_iaas)
      (exec (recover_erred_service get_backend l is_iaas) w) =
    objects (settings_model is_iaas) w)) /\
  (result (probe get_backend spl settings is_iaas) w <> Ok true ->
   service_project_links (exec (recover_erred_service get_backend l is_iaas) w) =
   service_project_links w /\
   service_settings (exec (recover_erred_service get_backend l is_iaas) w) =
   service_settings w /\
   clouds (exec (recover_erred_service get_backend l is_iaas) w) = clouds w) /\
  (is_iaas = false ->
   (result (probe get_backend spl settings is_iaas) w = Ok true <->
    ping (get_backend l) = Returns true)).
Proof.
  intros Hl Hset. pose proof (lookup_key _ _ _ _ Hl) as Hk.
  pose proof (lookup_key _ _ _ _ Hset) as Hu.
  assert (Hping : is_iaas = false ->
                  (result (probe get_backend spl settings is_iaas) w = Ok true <->
                   ping (get_backend l) = Returns true)).
  { intros ->. rewrite <- Hk. apply probe_by_ping. }
  unfold exec, result in *.
  rewrite (recover_erred_service_run w l is_iaas spl settings Hl Hset).
  destruct (probe_effect spl settings is_iaas w)
    as [[calls [Hlog Hcalls]] [Hss [Hc [Hlinks Hq]]]].
  destruct (probe get_backend spl settings is_iaas w) as [[[|]|exc] wp] eqn:Ep;
    simpl in Hlog, Hss, Hc, Hlinks, Hq.
  - rewrite heal_link_run. cbn [snd]. rewrite heal_settings_run. cbn [snd fst].
    erred_cases (state (link spl)); erred_cases (state settings);
      destruct is_iaas; simpl;
      (split; [split; [heal_log Hlog Hcalls | exact Hq]|]);
      (split;
       [ intros _; rewrite ?Hss, ?Hc, ?Hlinks;
         (split;
          [ first [ exact Hl
                  | rewrite <- Hk;
                    apply (lookup_upsert link_key
                             (set_link (set_state IN_SYNC (link spl)) spl)) ] |]);
         (split;
          [ first [ exact Hset
                  | rewrite <- Hu;
                    apply (lookup_upsert uuid (set_state IN_SYNC settings)) ] |]);
         split; intros Hne; first [contradiction | reflexivity]
       | split; [intros Hne; exfalso; now apply Hne | exact Hping] ]).
  - simpl.
    split; [split; [heal_log Hlog Hcalls | exact Hq]|].
    split; [discriminate|].
    split; [intros _; now rewrite Hss, Hc, Hlinks | exact Hping].
  - simpl.
    split; [split; [exists calls; now split | exact Hq]|].
    split; [discriminate|].
    split; [intros _; now rewrite Hss, Hc, Hlinks | exact Hping].
Qed.

End PerLink.

Lemma per_link_recovery_witness :
  lookup link_key "l1"
    (service_project_links
       (exec (recover_erred_service (fun _ => backend_ok) "l1" false)
          (world_with ERRED ERRED ""))) =
  Some (mkLink (mkEntity "l1" "L1" IN_SYNC "") "e1") /\
  lookup uuid "e1"
    (service_settings
       (exec (recover_erred_service (fun _ => backend_ok) "l1" false)
          (world_with ERRED ERRED ""))) =
  Some (mkEntity "e1" "E1" IN_SYNC "").
Proof.
  destruct (per_link_recovery (fun _ => backend_ok) (world_with ERRED ERRED "")
              "l1" false (mkLink (mkEntity "l1" "L1" ERRED "") "e1")
              (mkEntity "e1" "E1" ERRED "") eq_refl eq_refl)
    as [_ [Hheal _]].
  destruct (Hheal eq_refl) as [Hlink [Hsettings _]].
  split; [exact Hlink | exact Hsettings].
Defined.

(** ** Operations an adapter does not implement *)

Section Capability.
Variable get_backend : string -> Backend.


End Capability.



(** ** Two runs from start to end *)

(** A row that is IN_SYNC is swept, its sync fails with "timeout", and the
    row ends ERRED with that message; the next recovery sweep finds the
    adapter alive and syncing, and the row ends IN_SYNC with no message. *)
Example sync_failure_then_recovery :
  let failed :=
    worker (fun _ => backend_failing) 2
      (exec (sync_service_settings NoUuids) (world_with IN_SYNC IN_SYNC "")) in
  let recovered :=
    worker (fun _ => backend_ok) 3
      (exec (recover_erred_service_settings NoUuids) failed) in
  service_settings failed = [mkEntity "e1" "E1" ERRED "timeout"] /\
  queue failed = [] /\
  service_settings recovered = [mkEntity "e1" "E1" IN_SYNC ""] /\
  queue recovered = [].
Proof. repeat split. Qed.

(** A key push on a link that is SYNCING_SCHEDULED is queued again without
    touching the adapter; once the link is IN_SYNC the queued job calls
    [add_ssh_key]. *)
Example push_waits_for_link :
  let push := mkJob (t_push_ssh_public_key "k1" "l1") None None 0 in
  let waiting :=
    run_job (fun _ => backend_ok) push (world_with IN_SYNC SYNCING_SCHEDULED "") in
  let ready :=
    with_links [mkLink (mkEntity "l1" "L1" IN_SYNC "") "e1"] waiting in
  queue waiting = [mkJob (t_push_ssh_public_key "k1" "l1") None None 1] /\
  backend_calls (log waiting) = [] /\
  queue (worker_step (fun _ => backend_ok) ready) = [] /\
  backend_calls (log (worker_step (fun _ => backend_ok) ready)) =
  [EvBackend op_add_ssh_key "l1"].
Proof. repeat split. Qed.

(** * Further properties of the tasks *)

(** ** The sync sweep as a whole *)

(** X1: when the uuids of the settings table are distinct, the sweep
    rewrites the table row by row: a row that is selected and IN_SYNC
    becomes SYNCING_SCHEDULED, every other row stays as it was, and rows
    are neither added, dropped nor reordered. *)
Theorem sweep_rewrites_selected_rows (a : UuidsArg) (w : World) :
  NoDup (map uuid (service_settings w)) ->
  service_settings (exec (sync_service_settings a) w) =
  map (swept a) (service_settings w).
Proof.
  intros Hnd. destruct (sync_service_settings_effect a w) as [_ [_ Ht]].
  rewrite Ht. now apply sweep_rows_swept.
Qed.

Lemma sweep_rewrites_selected_rows_witness :
  service_settings
    (exec (sync_service_settings (ManyUuids ["e1"; "e3"])) three_rows_world) =
  [mkEntity "e1" "E1" SYNCING_SCHEDULED "";
   mkEntity "e2" "E2" IN_SYNC "";
   mkEntity "e3" "E3" ERRED "timeout"].
Proof.
  apply (sweep_rewrites_selected_rows (ManyUuids ["e1"; "e3"]) three_rows_world).
  repeat constructor; simpl; intuition discriminate.
Defined.

Lemma sweep_rows_origin (sel t : list Entity) (r : Entity) :
  In r (sweep_rows sel t) -> state r = IN_SYNC -> In r t.
Proof.
  revert t. induction sel as [|o sel IH]; intros t Hin Hs; [exact Hin|].
  rewrite sweep_rows_cons in Hin. apply IH in Hin; [|exact Hs].
  destruct (state_eqb (state o) IN_SYNC); [|exact Hin].
  destruct (String.eqb (uuid r) (uuid o)) eqn:Ek.
  - apply String.eqb_eq in Ek.
    rewrite (upsert_rows uuid (set_state SYNCING_SCHEDULED o) t r Hin Ek) in Hs.
    discriminate.
  - apply String.eqb_neq in Ek.
    now apply (upsert_other_rows uuid (set_state SYNCING_SCHEDULED o) t r).
Qed.

Lemma filter_nil {A} (f : A -> bool) (l : list A) :
  (forall x, In x l -> f x = false) -> filter f l = [].
Proof.
  induction l as [|x l IH]; intros H; [reflexivity|]. simpl.
  rewrite (H x (or_introl eq_refl)). apply IH. intros y Hy. apply H. now right.
Qed.

(** X2: the periodic sweep is idempotent: run a second time before any
    job has run, it selects nothing and leaves the world (tables, log and
    queue) exactly as the first sweep left it. *)
Theorem periodic_sweep_idempotent (w : World) :
  exec (sync_service_settings NoUuids) (exec (sync_service_settings NoUuids) w) =
  exec (sync_service_settings NoUuids) w.
Proof.
  destruct (sync_service_settings_effect NoUuids w) as [_ [_ Ht]].
  set (w1 := exec (sync_service_settings NoUuids) w) in *.
  assert (Hnone : select NoUuids IN_SYNC (service_settings w1) = []).
  { rewrite select_filter. apply filter_nil. intros r Hr.
    unfold selects. simpl. apply state_eqb_neq. intros Hs.
    rewrite Ht in Hr. pose proof (sweep_rows_origin _ _ _ Hr Hs) as Horig.
    assert (Hsel : In r (select NoUuids IN_SYNC (service_settings w))).
    { rewrite select_filter. apply filter_In. split; [exact Horig|].
      unfold selects. simpl. now apply state_eqb_eq. }
    pose proof (marked_established r _ (service_settings w) Hsel Hs r Hr eq_refl)
      as Hmarked.
    rewrite Hs in Hmarked. discriminate. }
  unfold exec at 1, sync_service_settings, bind, get_world.
  rewrite Hnone. reflexivity.
Qed.

Lemma for_each_keeps {A B} (obs : World -> B) (body : A -> M unit) :
  (forall x w, obs (snd (body x w)) = obs w) ->
  forall l w, obs (snd (for_each l body w)) = obs w.
Proof.
  intros Hbody l. induction l as [|x l IH]; intros w; [reflexivity|].
  rewrite for_each_cons. pose proof (Hbody x w) as Hx.
  destruct (body x w) as [[[]|exc] w1]; simpl in *.
  - now rewrite IH.
  - exact Hx.
Qed.

Lemma sync_one_keeps (obj : Entity) (w : World) :
  (rest_of (snd (sync_one obj w)), backend_calls (log (snd (sync_one obj w)))) =
  (rest_of w, backend_calls (log w)).
Proof.
  destruct (state_eqb (state obj) IN_SYNC) eqn:E1.
  - apply state_eqb_eq in E1. rewrite (sync_one_in_sync obj w E1).
    unfold rest_of. simpl. f_equal. log_filter.
  - destruct (state_eqb (state obj) CREATION_SCHEDULED) eqn:E2.
    + apply state_eqb_eq in E2. rewrite (sync_one_creation_scheduled obj w E2).
      unfold rest_of. simpl. f_equal. log_filter.
    + unfold sync_one. rewrite E1, E2. unfold rest_of. simpl. f_equal. log_filter.
Qed.

Lemma recover_one_keeps (s : Entity) (w : World) :
  (tables_of (snd (recover_one s w)), backend_calls (log (snd (recover_one s w)))) =
  (tables_of w, backend_calls (log w)).
Proof.
  unfold recover_one. destruct (state_eqb (state s) ERRED);
    unfold tables_of; simpl; f_equal; log_filter.
Qed.

(** X3: neither sweep ever raises or calls an adapter operation; the sync
    sweep changes nothing but the settings table, the log and the queue,
    and the recovery sweep changes no table at all. *)
Theorem sweeps_keep_the_rest (a : UuidsArg) (w : World) :
  (result (sync_service_settings a) w = Ok PyNone /\
   backend_calls (log (exec (sync_service_settings a) w)) = backend_calls (log w) /\
   rest_of (exec (sync_service_settings a) w) = rest_of w) /\
  (result (recover_erred_service_settings a) w = Ok PyNone /\
   backend_calls (log (exec (recover_erred_service_settings a) w)) =
   backend_calls (log w) /\
   tables_of (exec (recover_erred_service_settings a) w) = tables_of w).
Proof.
  split.
  - destruct (sync_service_settings_effect a w) as [Hok _].
    split; [exact Hok|].
    pose proof (for_each_keeps
                  (fun w => (rest_of w, backend_calls (log w)))
                  sync_one sync_one_keeps
                  (select a IN_SYNC (service_settings w)) w) as Hkeep.
    unfold exec, sync_service_settings, bind, get_world.
    destruct (for_each (select a IN_SYNC (service_settings w)) sync_one w)
      as [[[]|exc] w1]; cbn [fst snd] in *;
      pose proof (f_equal fst Hkeep) as Hr; pose proof (f_equal snd Hkeep) as Hb;
      cbn [fst snd] in Hr, Hb; (split; [exact Hb | exact Hr]).
  - pose proof (for_each_keeps
                  (fun w => (tables_of w, backend_calls (log w)))
                  recover_one recover_one_keeps
                  (select a ERRED (service_settings w)) w) as Hkeep.
    destruct (recover_loop_effect (select a ERRED (service_settings w)) w)
      as [Hok _].
    unfold result, exec, recover_erred_service_settings, bind, get_world.
    destruct (for_each (select a ERRED (service_settings w)) recover_one w)
      as [[[]|exc] w1]; cbn [fst snd] in *; [|discriminate].
    pose proof (f_equal fst Hkeep) as Hr. pose proof (f_equal snd Hkeep) as Hb.
    cbn [fst snd] in Hr, Hb. split; [reflexivity|]. split; [exact Hb | exact Hr].
Qed.

Lemma sync_one_warnings (obj : Entity) (w : World) :
  filter is_warning (log (snd (sync_one obj w))) =
  filter is_warning (log w) ++ (if unsyncable obj then [cannot_sync obj] else []).
Proof.
  unfold unsyncable. destruct (state_eqb (state obj) IN_SYNC) eqn:E1.
  - apply state_eqb_eq in E1. rewrite (sync_one_in_sync obj w E1). simpl.
    rewrite filter_app. reflexivity.
  - destruct (state_eqb (state obj) CREATION_SCHEDULED) eqn:E2.
    + apply state_eqb_eq in E2. rewrite (sync_one_creation_scheduled obj w E2).
      simpl. rewrite filter_app. reflexivity.
    + unfold sync_one. rewrite E1, E2. simpl. rewrite filter_app. reflexivity.
Qed.

Lemma sync_loop_warnings (sel : list Entity) (w : World) :
  filter is_warning (log (snd (for_each sel sync_one w))) =
  filter is_warning (log w) ++ map cannot_sync (filter unsyncable sel).
Proof.
  revert w. induction sel as [|obj sel IH]; intros w.
  - simpl. now rewrite app_nil_r.
  - rewrite for_each_cons.
    pose proof (sync_one_warnings obj w) as Hw.
    destruct (sync_one_effect obj w) as [Hok _].
    destruct (sync_one obj w) as [[[]|exc] w1]; simpl in *; [|discriminate].
    rewrite IH, Hw. destruct (unsyncable obj); simpl.
    + now rewrite <- app_assoc.
    + now rewrite app_nil_r.
Qed.

(** X4: the sync sweep logs one "Cannot sync" warning for each selected
    row that is neither IN_SYNC nor CREATION_SCHEDULED, in table order and
    naming the row, and no other warning; a sweep without uuids therefore
    logs none. *)
Theorem sweep_warnings (a : UuidsArg) (w : World) :
  map outline (filter is_warning (log (exec (sync_service_settings a) w))) =
  map outline (filter is_warning (log w)) ++
  map (fun r =>
         EvLog WARNING "Cannot sync service settings %s from state %s" [name r])
      (filter unsyncable (select a IN_SYNC (service_settings w))) /\
  (truthy a = false ->
   filter is_warning (log (exec (sync_service_settings a) w)) =
   filter is_warning (log w)).
Proof.
  assert (Hgen : filter is_warning (log (exec (sync_service_settings a) w)) =
                 filter is_warning (log w) ++
                 map cannot_sync
                   (filter unsyncable (select a IN_SYNC (service_settings w)))).
  { pose proof (sync_loop_warnings (select a IN_SYNC (service_settings w)) w) as Hw.
    destruct (sync_loop_effect (select a IN_SYNC (service_settings w)) w)
      as [Hok _].
    unfold exec, sync_service_settings, bind, get_world.
    destruct (for_each (select a IN_SYNC (service_settings w)) sync_one w)
      as [[[]|exc] w1]; simpl in *; [exact Hw | discriminate]. }
  split.
  - rewrite Hgen, map_app, map_map. f_equal.
  - intros Ha. rewrite Hgen. unfold select. rewrite Ha.
    rewrite (filter_nil unsyncable); [simpl; now rewrite app_nil_r|].
    intros r Hr. apply filter_In in Hr. destruct Hr as [_ Hs].
    unfold unsyncable. now rewrite Hs.
Qed.

Lemma recover_one_run (s : Entity) (w : World) :
  recover_one s w =
  (Ok tt,
   with_queue
     (queue w ++ (if state_eqb (state s) ERRED
                  then [recovering_job (uuid s)] else []))
     (with_log (log w ++ [recover_event s]) w)).
Proof.
  unfold recover_one, recover_event. destruct (state_eqb (state s) ERRED); simpl.
  - reflexivity.
  - unfold logger, emit, with_queue, with_log. simpl. now rewrite app_nil_r.
Qed.

Lemma recover_loop_run (sel : list Entity) (w : World) :
  for_each sel recover_one w =
  (Ok tt,
   with_queue
     (queue w ++ map (fun s => recovering_job (uuid s))
                     (filter (fun s => state_eqb (state s) ERRED) sel))
     (with_log (log w ++ map recover_event sel) w)).
Proof.
  revert w. induction sel as [|s sel IH]; intros w.
  - destruct w. simpl. unfold ret, with_queue, with_log. simpl.
    now rewrite !app_nil_r.
  - rewrite for_each_cons, recover_one_run, IH.
    unfold with_queue, with_log. simpl. rewrite <- !app_assoc. simpl.
    destruct (state_eqb (state s) ERRED); reflexivity.
Qed.

Lemma recover_sweep_run (a : UuidsArg) (w : World) :
  exec (recover_erred_service_settings a) w =
  with_queue
    (queue w ++
     map (fun s => recovering_job (uuid s))
         (filter (fun s => state_eqb (state s) ERRED)
                 (select a ERRED (service_settings w))))
    (with_log
       (log w ++ map recover_event (select a ERRED (service_settings w))) w).
Proof.
  unfold exec, recover_erred_service_settings, bind, get_world.
  now rewrite recover_loop_run.
Qed.

(** X5: the recovery sweep only appends: one probe job for each selected
    ERRED row and one log entry for each selected row (the submission, or
    a "Cannot recover" warning naming a row that is not ERRED), both in
    table order; no table changes. *)
Theorem recovery_sweep_effect (a : UuidsArg) (w : World) :
  tables_of (exec (recover_erred_service_settings a) w) = tables_of w /\
  queue (exec (recover_erred_service_settings a) w) =
  queue w ++
  map (fun s => recovering_job (uuid s))
      (filter (fun s => state_eqb (state s) ERRED)
              (select a ERRED (service_settings w))) /\
  map outline (log (exec (recover_erred_service_settings a) w)) =
  map outline (log w) ++
  map (fun s =>
         if state_eqb (state s) ERRED
         then EvSubmit (recovering_job (uuid s))
         else EvLog WARNING "Cannot recover service settings %s from state %s"
                [name s])
      (select a ERRED (service_settings w)).
Proof.
  rewrite recover_sweep_run. split; [reflexivity|]. split; [reflexivity|].
  simpl. rewrite map_app, map_map. f_equal. apply map_ext. intros s.
  unfold recover_event. now destruct (state_eqb (state s) ERRED).
Qed.

(** X6: unlike the sync sweep, the recovery sweep does not move the rows
    it selects: run a second time before any probe job has run, it selects
    the same rows and queues every probe job a second time. *)
Theorem recovery_sweep_queues_again (a : UuidsArg) (w : World) :
  service_settings (exec (recover_erred_service_settings a) w) =
  service_settings w /\
  queue (exec (recover_erred_service_settings a)
           (exec (recover_erred_service_settings a) w)) =
  (queue w ++
   map (fun s => recovering_job (uuid s))
       (filter (fun s => state_eqb (state s) ERRED)
               (select a ERRED (service_settings w)))) ++
  map (fun s => recovering_job (uuid s))
      (filter (fun s => state_eqb (state s) ERRED)
              (select a ERRED (service_settings w))).
Proof.
  rewrite (recover_sweep_run a (exec (recover_erred_service_settings a) w)).
  rewrite (recover_sweep_run a w). simpl. split; reflexivity.
Qed.

(** ** The propagation tasks as a whole *)

Ltac task_cases :=
  repeat (simpl;
          match goal with
          | |- context [match lookup ?k ?u ?t with _ => _ end] =>
              let E := fresh "El" in destruct (lookup k u t) eqn:E
          | |- context [if negb ?b then _ else _] =>
              let E := fresh "Eb" in destruct b eqn:E
          | |- context [if ?b then _ else _] =>
              let E := fresh "Eb" in destruct b eqn:E
          | |- context [match ?o with Returns _ => _ | Raises _ => _ end] =>
              let E := fresh "Eo" in destruct o as [[]|[]] eqn:E
          end).

Ltac open_task :=
  unfold run_task, push_ssh_public_key, add_user, remove_ssh_public_key,
    remove_user, retry_if_false, push_ssh_public_key_body, add_user_body,
    push_key_to_backend, add_user_to_backend; run_monad.

Section PropagationWhole.
Variable get_backend : string -> Backend.

(** X7: whatever the adapter does, a propagation task (key push, key
    removal, user add, user removal) changes no table and queues nothing:
    it never moves a link or a settings row to another state. *)
Theorem propagation_changes_no_row (t : Task) (w : World) :
  is_propagation t = true ->
  tables_of (exec (run_task get_backend t) w) = tables_of w /\
  queue (exec (run_task get_backend t) w) = queue w.
Proof.
  destruct t; try discriminate; intros _; unfold exec, tables_of;
    open_task; task_cases; split; reflexivity.
Qed.

(** X8: a key push calls [add_ssh_key] (once) exactly when the key exists
    and the link exists and is IN_SYNC or ERRED -- on an ERRED link it does
    call the adapter -- and in every other case it calls nothing; the
    same holds for a user add and [add_user]. *)
Theorem push_and_add_reach_backend (k l : string) (w : World) :
  backend_calls (log (exec (push_ssh_public_key get_backend k l) w)) =
  backend_calls (log w) ++
  (if mem_string k (ssh_public_keys w) && link_passes l w
   then [EvBackend op_add_ssh_key l] else []) /\
  backend_calls (log (exec (add_user get_backend k l) w)) =
  backend_calls (log w) ++
  (if mem_string k (users w) && link_passes l w
   then [EvBackend op_add_user l] else []).
Proof.
  unfold exec, link_passes. split; open_task; task_cases;
    try (apply lookup_key in El; rewrite El); log_filter.
Qed.

(** X9: the body of a key push returns False -- and the decorated task
    then asks for a retry -- exactly when the key exists and the link
    exists and is neither IN_SYNC nor ERRED; the same holds for a user
    add. *)
Theorem push_and_add_wait (k l : string) (w : World) :
  (result (push_ssh_public_key_body get_backend k l) w = Ok (PyBool false) <->
   mem_string k (ssh_public_keys w) && link_not_ready l w = true) /\
  (mem_string k (ssh_public_keys w) && link_not_ready l w = true ->
   result (push_ssh_public_key get_backend k l) w = Raise Retry) /\
  (result (add_user_body get_backend k l) w = Ok (PyBool false) <->
   mem_string k (users w) && link_not_ready l w = true) /\
  (mem_string k (users w) && link_not_ready l w = true ->
   result (add_user get_backend k l) w = Raise Retry).
Proof.
  unfold result, link_not_ready. repeat split; open_task; task_cases;
    intros; try reflexivity; try discriminate.
Qed.

(** X10: when the adapter fails with a backend error (service or cloud),
    a key push, a user add on a link that is IN_SYNC or ERRED, and a key
    removal on any link each catch the error, log exactly one warning and
    complete -- the push and the add with True, so without a retry. *)
Theorem backend_error_is_tolerated
    (k l : string) (exc : Exc) (spl : ServiceProjectLink) (w : World) :
  lookup link_key l (service_project_links w) = Some spl ->
  is_backend_error exc = true ->
  (mem_string k (ssh_public_keys w) = true -> link_passes l w = true ->
   add_ssh_key (get_backend l) k = Raises exc ->
   result (push_ssh_public_key get_backend k l) w = Ok (PyBool true) /\
   filter is_warning (log (exec (push_ssh_public_key get_backend k l) w)) =
   filter is_warning (log w) ++
   [EvLog WARNING "Failed to push SSH key %s to service project link %s." [k; l]]) /\
  (mem_string k (users w) = true -> link_passes l w = true ->
   backend_add_user (get_backend l) k = Raises exc ->
   result (add_user get_backend k l) w = Ok (PyBool true) /\
   filter is_warning (log (exec (add_user get_backend k l) w)) =
   filter is_warning (log w) ++
   [EvLog WARNING "Failed to add user %s for service project link %s" [k; l]]) /\
  (remove_ssh_key (get_backend l) k = Raises exc ->
   result (remove_ssh_public_key get_backend k l) w = Ok PyNone /\
   filter is_warning (log (exec (remove_ssh_public_key get_backend k l) w)) =
   filter is_warning (log w) ++
   [EvLog WARNING "Failed to remove SSH key %s from service project link %s."
      [k; l]]).
Proof.
  intros Hl Hexc. pose proof (lookup_key _ _ _ _ Hl) as Hk.
  unfold link_passes, result, exec. rewrite Hl.
  split; [|split].
  - intros Hm Hp Hb. open_task. rewrite Hm, Hl. simpl.
    destruct (state_eqb (state (link spl)) IN_SYNC);
      destruct (state_eqb (state (link spl)) ERRED); try discriminate;
      simpl; rewrite Hk, Hb; destruct exc; try discriminate; simpl;
      (split; [reflexivity|]); rewrite !filter_app; simpl;
      rewrite ?app_nil_r; reflexivity.
  - intros Hm Hp Hb. open_task. rewrite Hm, Hl. simpl.
    destruct (state_eqb (state (link spl)) IN_SYNC);
      destruct (state_eqb (state (link spl)) ERRED); try discriminate;
      simpl; rewrite Hk, Hb; destruct exc; try discriminate; simpl;
      (split; [reflexivity|]); rewrite !filter_app; simpl;
      rewrite ?app_nil_r; reflexivity.
  - intros Hb. open_task. rewrite Hl. simpl. rewrite Hk, Hb.
    destruct exc; try discriminate; simpl;
      (split; [reflexivity|]); rewrite !filter_app; simpl;
      rewrite ?app_nil_r; reflexivity.
Qed.

End PropagationWhole.

Lemma propagation_changes_no_row_witness :
  tables_of (exec (run_task (fun _ => backend_failing) (t_remove_user "u1" "l1"))
               (world_with IN_SYNC SYNCING "")) =
  tables_of (world_with IN_SYNC SYNCING "") /\
  queue (exec (run_task (fun _ => backend_failing) (t_remove_user "u1" "l1"))
           (world_with IN_SYNC SYNCING "")) = [].
Proof.
  apply (propagation_changes_no_row (fun _ => backend_failing)
           (t_remove_user "u1" "l1") (world_with IN_SYNC SYNCING "")).
  reflexivity.
Defined.

Lemma backend_error_is_tolerated_witness :
  result (push_ssh_public_key (fun _ => backend_failing) "k1" "l1")
    (world_with IN_SYNC ERRED "") = Ok (PyBool true) /\
  result (remove_ssh_public_key (fun _ => backend_failing) "k1" "l1")
    (world_with IN_SYNC ERRED "") = Ok PyNone.
Proof.
  destruct (backend_error_is_tolerated (fun _ => backend_failing) "k1" "l1"
              (ServiceBackendError "timeout")
              (mkLink (mkEntity "l1" "L1" ERRED "") "e1")
              (world_with IN_SYNC ERRED "") eq_refl eq_refl)
    as [Hpush [_ Hremove]].
  split.
  - exact (proj1 (Hpush eq_refl eq_refl eq_refl)).
  - exact (proj1 (Hremove eq_refl)).
Defined.

(** ** The per-link recovery as a whole *)

Section PerLinkWhole.
Variable get_backend : string -> Backend.

Lemma probe_tables (spl : ServiceProjectLink) (settings : Entity)
    (is_iaas : bool) (w : World) :
  tables_of (snd (probe get_backend spl settings is_iaas w)) = tables_of w /\
  queue (snd (probe get_backend spl settings is_iaas w)) = queue w.
Proof.
  unfold probe, tables_of. run_monad. destruct is_iaas.
  - destruct (state_eqb (state (link spl)) ERRED);
      destruct (state_eqb (state settings) ERRED); simpl;
      try outcome_cases (create_session_membership (get_backend (link_key spl)));
      try outcome_cases (create_session_keystone (get_backend (link_key spl)));
      split; reflexivity.
  - destruct (ping (get_backend (link_key spl))) as [[|]|[]]; simpl;
      split; reflexivity.
Qed.

(** What the probe answers depends on the adapter and on the two rows,
    not on the rest of the world. *)
Lemma probe_result_same (spl : ServiceProjectLink) (settings : Entity)
    (is_iaas : bool) (w w' : World) :
  fst (probe get_backend spl settings is_iaas w) =
  fst (probe get_backend spl settings is_iaas w').
Proof.
  unfold probe. run_monad. destruct is_iaas.
  - destruct (state_eqb (state (link spl)) ERRED);
      destruct (state_eqb (state settings) ERRED); simpl;
      try outcome_cases (create_session_membership (get_backend (link_key spl)));
      try outcome_cases (create_session_keystone (get_backend (link_key spl)));
      reflexivity.
  - destruct (ping (get_backend (link_key spl))) as [[|]|[]]; reflexivity.
Qed.

(** X11: the per-link recovery has two ways of having nothing to do.  A
    link string that resolves to nothing gives one warning and a normal
    return.  An IaaS link of which neither the link nor its cloud is ERRED
    gives no adapter call at all and leaves the world, log included, as it
    was. *)
Theorem per_link_recovery_nothing_to_do (l : string) (is_iaas : bool) (w : World) :
  (lookup link_key l (service_project_links w) = None ->
   recover_erred_service get_backend l is_iaas w =
   (Ok PyNone,
    with_log (log w ++ [EvLog WARNING "Missing service project link %s." [l]]) w)) /\
  (forall spl settings,
      lookup link_key l (service_project_links w) = Some spl ->
      lookup uuid (settings_ref spl) (clouds w) = Some settings ->
      state (link spl) <> ERRED -> state settings <> ERRED ->
      recover_erred_service get_backend l true w = (Ok PyNone, w)).
Proof.
  split.
  - intros Hl. unfold recover_erred_service. unfold bind at 1, get_world.
    rewrite Hl. reflexivity.
  - intros spl settings Hl Hset Hs1 Hs2.
    rewrite (recover_erred_service_run get_backend w l true spl settings Hl Hset).
    unfold probe, heal_settings, heal_link.
    apply state_eqb_neq in Hs1. apply state_eqb_neq in Hs2.
    rewrite Hs1, Hs2. reflexivity.
Qed.

(** After a run whose probe succeeded, the link and its settings row are
    found again and neither is ERRED. *)
Lemma healed_rows (w : World) (l : string) (is_iaas : bool)
    (spl : ServiceProjectLink) (settings : Entity) :
  lookup link_key l (service_project_links w) = Some spl ->
  lookup uuid (settings_ref spl) (objects (settings_model is_iaas) w) =
  Some settings ->
  fst (probe get_backend spl settings is_iaas w) = Ok true ->
  exists spl' settings',
    lookup link_key l
      (service_project_links (exec (recover_erred_service get_backend l is_iaas) w)) =
    Some spl' /\
    lookup uuid (settings_ref spl')
      (objects (settings_model is_iaas)
         (exec (recover_erred_service get_backend l is_iaas) w)) =
    Some settings' /\
    state (link spl') <> ERRED /\ state settings' <> ERRED.
Proof.
  intros Hl Hset Hp. pose proof (lookup_key _ _ _ _ Hl) as Hk.
  pose proof (lookup_key _ _ _ _ Hset) as Hu.
  unfold exec. rewrite (recover_erred_service_run get_backend w l is_iaas spl settings Hl Hset).
  destruct (probe_effect get_backend spl settings is_iaas w)
    as [_ [Hss [Hc [Hlinks _]]]].
  destruct (probe get_backend spl settings is_iaas w) as [[[|]|exc] wp] eqn:Ep;
    simpl in Hp, Hss, Hc, Hlinks; try discriminate.
  rewrite heal_link_run. cbn [snd]. rewrite heal_settings_run. cbn [snd fst].
  exists (if state_eqb (state (link spl)) ERRED
          then set_link (set_state IN_SYNC (link spl)) spl else spl),
         (if state_eqb (state settings) ERRED
          then set_state IN_SYNC settings else settings).
  erred_cases (state (link spl)); erred_cases (state settings);
    destruct is_iaas; simpl; rewrite ?Hss, ?Hc, ?Hlinks;
    (split;
     [ first [ exact Hl
             | rewrite <- Hk;
               apply (lookup_upsert link_key
                        (set_link (set_state IN_SYNC (link spl)) spl)) ] |]);
    (split;
     [ first [ exact Hset
             | rewrite <- Hu;
               apply (lookup_upsert uuid (set_state IN_SYNC settings)) ] |]);
    split; first [assumption | discriminate].
Qed.

(** A run on rows that are not ERRED, or whose probe does not succeed,
    changes no table. *)
Lemma unhealed_tables (w : World) (l : string) (is_iaas : bool)
    (spl : ServiceProjectLink) (settings : Entity) :
  lookup link_key l (service_project_links w) = Some spl ->
  lookup uuid (settings_ref spl) (objects (settings_model is_iaas) w) =
  Some settings ->
  (state (link spl) <> ERRED /\ state settings <> ERRED) \/
  fst (probe get_backend spl settings is_iaas w) <> Ok true ->
  tables_of (exec (recover_erred_service get_backend l is_iaas) w) = tables_of w.
Proof.
  intros Hl Hset Hwhy.
  unfold exec. rewrite (recover_erred_service_run get_backend w l is_iaas spl settings Hl Hset).
  destruct (probe_tables spl settings is_iaas w) as [Ht _].
  destruct (probe get_backend spl settings is_iaas w) as [[[|]|exc] wp] eqn:Ep;
    cbn [fst snd] in *; [|exact Ht|exact Ht].
  destruct Hwhy as [[Hs1 Hs2]|Hne]; [|now exfalso; apply Hne].
  rewrite heal_link_run. cbn [snd]. rewrite heal_settings_run. cbn [snd fst].
  apply state_eqb_neq in Hs1. apply state_eqb_neq in Hs2.
  rewrite Hs1, Hs2. exact Ht.
Qed.

(** X12: with the same adapter, running the per-link recovery a second
    time changes no table: whatever the first run healed stays healed, and
    what it could not heal the second run cannot heal either. *)
Theorem per_link_recovery_settles
    (w : World) (l : string) (is_iaas : bool) (spl : ServiceProjectLink)
    (settings : Entity) :
  lookup link_key l (service_project_links w) = Some spl ->
  lookup uuid (settings_ref spl) (objects (settings_model is_iaas) w) =
  Some settings ->
  tables_of (exec (recover_erred_service get_backend l is_iaas)
               (exec (recover_erred_service get_backend l is_iaas) w)) =
  tables_of (exec (recover_erred_service get_backend l is_iaas) w).
Proof.
  intros Hl Hset.
  destruct (fst (probe get_backend spl settings is_iaas w)) as [[|]|exc] eqn:Ep.
  - destruct (healed_rows w l is_iaas spl settings Hl Hset Ep)
      as [spl' [settings' [Hl' [Hset' [Hs1 Hs2]]]]].
    apply (unhealed_tables _ l is_iaas spl' settings' Hl' Hset'). now left.
  - assert (Ht : tables_of (exec (recover_erred_service get_backend l is_iaas) w) =
                 tables_of w).
    { apply (unhealed_tables w l is_iaas spl settings Hl Hset). right.
      rewrite Ep. discriminate. }
    pose proof Ht as Hfields. unfold tables_of in Hfields.
    injection Hfields as Hss Hc Hlinks _ _.
    apply (unhealed_tables _ l is_iaas spl settings).
    + now rewrite Hlinks.
    + destruct is_iaas; simpl; [now rewrite Hc | now rewrite Hss].
    + right. rewrite (probe_result_same spl settings is_iaas _ w), Ep. discriminate.
  - assert (Ht : tables_of (exec (recover_erred_service get_backend l is_iaas) w) =
                 tables_of w).
    { apply (unhealed_tables w l is_iaas spl settings Hl Hset). right.
      rewrite Ep. discriminate. }
    pose proof Ht as Hfields. unfold tables_of in Hfields.
    injection Hfields as Hss Hc Hlinks _ _.
    apply (unhealed_tables _ l is_iaas spl settings).
    + now rewrite Hlinks.
    + destruct is_iaas; simpl; [now rewrite Hc | now rewrite Hss].
    + right. rewrite (probe_result_same spl settings is_iaas _ w), Ep. discriminate.
Qed.

End PerLinkWhole.

(** ** Services and links for shared settings *)

Lemma first_by_id_in (s0 : Service) (rest : list Service) :
  In (first_by_id s0 rest) (s0 :: rest).
Proof.
  unfold first_by_id. revert s0. induction rest as [|x rest IH]; intros s0.
  - now left.
  - simpl. destruct (IH (if Nat.ltb (srv_id x) (srv_id s0) then x else s0))
      as [H|H].
    + rewrite <- H. destruct (Nat.ltb (srv_id x) (srv_id s0)); simpl; tauto.
    + simpl. tauto.
Qed.

Lemma grows_refl (d : Directory) : grows d d.
Proof.
  repeat split; exists []; now rewrite app_nil_r.
Qed.

Lemma grows_trans (d1 d2 d3 : Directory) :
  grows d1 d2 -> grows d2 d3 -> grows d1 d3.
Proof.
  intros [Hs [Hc [Hp [[es Hes] [el Hel]]]]] [Hs' [Hc' [Hp' [[es' Hes'] [el' Hel']]]]].
  repeat split; try congruence.
  - exists (es ++ es'). now rewrite Hes', Hes, app_assoc.
  - exists (el ++ el'). now rewrite Hel', Hel, app_assoc.
Qed.

Lemma fold_left_grows {A} (f : Directory -> A -> Directory) (l : list A) :
  (forall d x, grows d (f d x)) ->
  forall d, grows d (fold_left f l d).
Proof.
  intros Hf. induction l as [|x l IH]; intros d; simpl.
  - apply grows_refl.
  - apply grows_trans with (f d x); [apply Hf | apply IH].
Qed.

Lemma ensure_link_grows (model : string) (service : Service) (d : Directory)
    (p : Project) :
  grows d (ensure_link model service d p).
Proof.
  unfold ensure_link.
  destruct (existsb _ (dir_links d)); [apply grows_refl|].
  repeat split; simpl.
  - exists []. now rewrite app_nil_r.
  - now eexists.
Qed.

Lemma ensure_service_grows (model : string) (settings : SettingsRow)
    (d : Directory) (customer : string) :
  grows d (ensure_service model settings d customer).
Proof.
  unfold ensure_service.
  destruct (filter (service_matches model customer (uuid (row settings)))
              (dir_services d)) as [|s0 rest].
  - eapply grows_trans; [|apply fold_left_grows; intros; apply ensure_link_grows].
    repeat split; simpl.
    + now eexists.
    + exists []. now rewrite app_nil_r.
  - apply fold_left_grows. intros. apply ensure_link_grows.
Qed.

Section SharedSettingsFacts.
Variable service_models : string -> option string.

Lemma ensure_all_grows (sel : list SettingsRow) (d : Directory) :
  grows d (fst (ensure_all service_models sel d)).
Proof.
  revert d. induction sel as [|s sel IH]; intros d; simpl.
  - apply grows_refl.
  - destruct (service_models (settings_type s)) as [model|]; [|apply grows_refl].
    eapply grows_trans; [|apply IH].
    apply fold_left_grows. intros. apply ensure_service_grows.
Qed.

(** X13: the task only ever appends: it leaves the settings, customers and
    projects as they were, keeps every service and every link that was
    there, in place, and adds its new rows behind them. *)
Theorem shared_settings_only_appends (a : UuidsArg) (d : Directory) :
  grows d (fst (create_spls_and_services_for_shared_settings service_models a d)).
Proof.
  unfold create_spls_and_services_for_shared_settings. apply ensure_all_grows.
Qed.

Lemma existsb_grows (f : Through -> bool) (d d' : Directory) :
  grows d d' -> existsb f (dir_links d) = true -> existsb f (dir_links d') = true.
Proof.
  intros [_ [_ [_ [_ [el Hel]]]]] H. rewrite Hel, existsb_app, H. reflexivity.
Qed.

Lemma ensure_link_services (model : string) (service : Service) (d : Directory)
    (p : Project) :
  dir_services (ensure_link model service d p) = dir_services d.
Proof.
  unfold ensure_link. now destruct (existsb _ (dir_links d)).
Qed.

Lemma fold_links_services (model : string) (service : Service)
    (ps : list Project) (d : Directory) :
  dir_services (fold_left (ensure_link model service) ps d) = dir_services d.
Proof.
  revert d. induction ps as [|p ps IH]; intros d; simpl; [reflexivity|].
  now rewrite IH, ensure_link_services.
Qed.

Lemma ensure_link_links (model : string) (service : Service) (d : Directory)
    (p : Project) :
  existsb (link_matches model (project_uuid p) (srv_id service))
          (dir_links (ensure_link model service d p)) = true.
Proof.
  unfold ensure_link.
  destruct (existsb _ (dir_links d)) eqn:E; [exact E|].
  simpl. rewrite existsb_app. simpl. unfold link_matches at 2. simpl.
  now rewrite !String.eqb_refl, Nat.eqb_refl, orb_true_r.
Qed.

Lemma fold_links_covers (model : string) (service : Service)
    (ps : list Project) (d : Directory) (p : Project) :
  In p ps ->
  existsb (link_matches model (project_uuid p) (srv_id service))
          (dir_links (fold_left (ensure_link model service) ps d)) = true.
Proof.
  revert d. induction ps as [|x ps IH]; intros d Hin; [contradiction|].
  simpl. destruct Hin as [->|Hin].
  - apply existsb_grows with (ensure_link model service d p).
    + apply fold_left_grows. intros. apply ensure_link_grows.
    + apply ensure_link_links.
  - now apply IH.
Qed.

Lemma fold_links_identity (model : string) (service : Service)
    (ps : list Project) (d : Directory) :
  (forall p, In p ps ->
             existsb (link_matches model (project_uuid p) (srv_id service))
                     (dir_links d) = true) ->
  fold_left (ensure_link model service) ps d = d.
Proof.
  induction ps as [|x ps IH]; intros H; simpl; [reflexivity|].
  assert (ensure_link model service d x = d) as ->.
  { unfold ensure_link. now rewrite (H x (or_introl eq_refl)). }
  apply IH. intros p Hp. apply H. now right.
Qed.

Lemma service_matches_fields (model customer settings : string) (s : Service) :
  service_matches model customer settings s = true ->
  srv_model s = model /\ srv_customer s = customer /\ srv_settings s = settings.
Proof.
  unfold service_matches. intros H.
  apply andb_prop in H. destruct H as [H H3].
  apply andb_prop in H. destruct H as [H1 H2].
  repeat split; now apply String.eqb_eq.
Qed.

Lemma first_matches (model customer settings : string) (services : list Service)
    (s0 : Service) (rest : list Service) :
  filter (service_matches model customer settings) services = s0 :: rest ->
  srv_customer (first_by_id s0 rest) = customer.
Proof.
  intros Hf. pose proof (first_by_id_in s0 rest) as Hin.
  rewrite <- Hf in Hin. apply filter_In in Hin. destruct Hin as [_ Hm].
  now apply service_matches_fields in Hm.
Qed.

(** On a customer that is covered the loop body changes nothing. *)
Lemma ensure_service_identity (model : string) (settings : SettingsRow)
    (d : Directory) (customer : string) :
  covered model customer (uuid (row settings)) d ->
  ensure_service model settings d customer = d.
Proof.
  intros [s0 [rest [Hf Hl]]]. unfold ensure_service. rewrite Hf.
  apply fold_links_identity. intros p Hp.
  apply filter_In in Hp. destruct Hp as [Hp Hc].
  apply String.eqb_eq in Hc. rewrite (first_matches _ _ _ _ _ _ Hf) in Hc.
  now apply Hl.
Qed.

(** After the loop body the customer is covered. *)
Lemma ensure_service_covers (model : string) (settings : SettingsRow)
    (d : Directory) (customer : string) :
  covered model customer (uuid (row settings))
    (ensure_service model settings d customer).
Proof.
  unfold ensure_service, covered.
  destruct (filter (service_matches model customer (uuid (row settings)))
              (dir_services d)) as [|s0 rest] eqn:Hf.
  - set (created := mkService (next_id model (dir_services d)) model customer
                      (uuid (row settings)) (name (row settings)) true).
    exists created, []. rewrite fold_links_services. simpl. split.
    + rewrite filter_app, Hf. simpl. unfold service_matches at 1. simpl.
      now rewrite !String.eqb_refl.
    + intros p Hp Hc.
      destruct (fold_left_grows (ensure_link model created)
                  (filter (fun p0 => String.eqb (project_customer p0) customer)
                          (dir_projects d))
                  (fun d0 x => ensure_link_grows model created d0 x)
                  (with_dir_services (dir_services d ++ [created]) d))
        as [_ [_ [Hproj _]]].
      rewrite Hproj in Hp. simpl in Hp.
      apply (fold_links_covers model created). apply filter_In.
      split; [exact Hp|]. now apply String.eqb_eq.
  - exists s0, rest. rewrite fold_links_services. split; [exact Hf|].
    intros p Hp Hc.
    destruct (fold_left_grows (ensure_link model (first_by_id s0 rest))
                (filter (fun p0 => String.eqb (project_customer p0)
                                     (srv_customer (first_by_id s0 rest)))
                        (dir_projects d))
                (fun d0 x => ensure_link_grows model (first_by_id s0 rest) d0 x) d)
      as [_ [_ [Hproj _]]].
    rewrite Hproj in Hp.
    apply (fold_links_covers model (first_by_id s0 rest)). apply filter_In.
    split; [exact Hp|].
    apply String.eqb_eq. now rewrite (first_matches _ _ _ _ _ _ Hf).
Qed.

Lemma ensure_service_services (model : string) (settings : SettingsRow)
    (d : Directory) (customer : string) :
  dir_services (ensure_service model settings d customer) =
  dir_services d ++
  match filter (service_matches model customer (uuid (row settings)))
               (dir_services d) with
  | [] => [mkService (next_id model (dir_services d)) model customer
                     (uuid (row settings)) (name (row settings)) true]
  | _ :: _ => []
  end.
Proof.
  unfold ensure_service.
  destruct (filter (service_matches model customer (uuid (row settings)))
              (dir_services d)) as [|s0 rest];
    rewrite fold_links_services; simpl; [reflexivity | now rewrite app_nil_r].
Qed.

(** The loop body on one customer leaves every covered customer covered. *)
Lemma ensure_service_preserves (model : string) (settings : SettingsRow)
    (d : Directory) (customer : string) (model' customer' settings' : string) :
  covered model' customer' settings' d ->
  covered model' customer' settings' (ensure_service model settings d customer).
Proof.
  intros Hcov.
  destruct (service_matches model' customer' settings'
              (mkService (next_id model (dir_services d)) model customer
                         (uuid (row settings)) (name (row settings)) true))
    eqn:Esame.
  - apply service_matches_fields in Esame. simpl in Esame.
    destruct Esame as [<- [<- <-]].
    now rewrite ensure_service_identity.
  - destruct Hcov as [s0 [rest [Hf Hl]]]. exists s0, rest.
    pose proof (ensure_service_grows model settings d customer) as Hg.
    split.
    + rewrite ensure_service_services, filter_app, Hf.
      destruct (filter (service_matches model customer (uuid (row settings)))
                  (dir_services d)); simpl; [|now rewrite app_nil_r].
      rewrite Esame. now rewrite app_nil_r.
    + intros p Hp Hc. apply (existsb_grows _ d _ Hg).
      destruct Hg as [_ [_ [Hproj _]]]. rewrite Hproj in Hp. now apply Hl.
Qed.

Lemma customers_preserve (model : string) (settings : SettingsRow)
    (cs : list string) (d : Directory) (model' customer' settings' : string) :
  covered model' customer' settings' d ->
  covered model' customer' settings'
    (fold_left (ensure_service model settings) cs d).
Proof.
  revert d. induction cs as [|c cs IH]; intros d H; simpl; [exact H|].
  apply IH. now apply ensure_service_preserves.
Qed.

Lemma customers_cover (model : string) (settings : SettingsRow)
    (cs : list string) (d : Directory) (c : string) :
  In c cs ->
  covered model c (uuid (row settings))
    (fold_left (ensure_service model settings) cs d).
Proof.
  revert d. induction cs as [|x cs IH]; intros d Hin; [contradiction|].
  simpl. destruct Hin as [->|Hin].
  - apply customers_preserve. apply ensure_service_covers.
  - now apply IH.
Qed.

Lemma customers_identity (model : string) (settings : SettingsRow)
    (cs : list string) (d : Directory) :
  (forall c, In c cs -> covered model c (uuid (row settings)) d) ->
  fold_left (ensure_service model settings) cs d = d.
Proof.
  induction cs as [|x cs IH]; intros H; simpl; [reflexivity|].
  rewrite ensure_service_identity; [|apply H; now left].
  apply IH. intros c Hc. apply H. now right.
Qed.

Lemma ensure_all_preserves (sel : list SettingsRow) (d : Directory)
    (model customer settings : string) :
  covered model customer settings d ->
  covered model customer settings (fst (ensure_all service_models sel d)).
Proof.
  revert d. induction sel as [|s sel IH]; intros d H; simpl; [exact H|].
  destruct (service_models (settings_type s)) as [m|]; [|exact H].
  apply IH. now apply customers_preserve.
Qed.

Lemma ensure_all_error (sel : list SettingsRow) (d : Directory) :
  snd (ensure_all service_models sel d) = first_unregistered service_models sel.
Proof.
  revert d. induction sel as [|s sel IH]; intros d; simpl; [reflexivity|].
  destruct (service_models (settings_type s)); [apply IH | reflexivity].
Qed.

Lemma ensure_all_covers (sel : list SettingsRow) (d : Directory)
    (s : SettingsRow) (model c : string) :
  In s (served service_models sel) ->
  service_models (settings_type s) = Some model ->
  In c (dir_customers d) ->
  covered model c (uuid (row s)) (fst (ensure_all service_models sel d)).
Proof.
  revert d. induction sel as [|x sel IH]; intros d Hin Hm Hc; [contradiction|].
  simpl in *. destruct (service_models (settings_type x)) as [m|] eqn:Ex;
    [|contradiction].
  destruct Hin as [->|Hin].
  - assert (m = model) as -> by congruence.
    apply ensure_all_preserves. now apply customers_cover.
  - apply IH; [exact Hin | exact Hm |].
    destruct (fold_left_grows (ensure_service m x) (dir_customers d)
                (fun d0 c0 => ensure_service_grows m x d0 c0) d)
      as [_ [Hcust _]].
    now rewrite Hcust.
Qed.

Lemma ensure_all_identity (sel : list SettingsRow) (d : Directory) :
  (forall s model c,
      In s (served service_models sel) ->
      service_models (settings_type s) = Some model ->
      In c (dir_customers d) ->
      covered model c (uuid (row s)) d) ->
  ensure_all service_models sel d = (d, first_unregistered service_models sel).
Proof.
  induction sel as [|x sel IH]; intros H; simpl in *; [reflexivity|].
  destruct (service_models (settings_type x)) as [m|] eqn:Ex; [|reflexivity].
  rewrite customers_identity.
  - apply IH. intros s model c Hs Hm Hc. apply H; [now right | exact Hm | exact Hc].
  - intros c Hc. apply H; [now left | exact Ex | exact Hc].
Qed.

Lemma served_all (sel : list SettingsRow) :
  first_unregistered service_models sel = None ->
  served service_models sel = sel.
Proof.
  induction sel as [|x sel IH]; simpl; [reflexivity|].
  destruct (service_models (settings_type x)); [|discriminate].
  intros H. now rewrite IH.
Qed.

(** X14: when the task completes, every customer is covered for every
    selected settings row: the customer has a service of the registered
    model on that row, and each of the customer's projects is linked to
    the service [first()] picks.  With uuids given this holds for the rows
    named, whether or not they are shared or IN_SYNC. *)
Theorem shared_settings_cover_every_customer
    (a : UuidsArg) (d : Directory) (s : SettingsRow) (c : string) :
  snd (create_spls_and_services_for_shared_settings service_models a d) = None ->
  In s (select_shared a (dir_settings d)) ->
  In c (dir_customers d) ->
  exists model,
    service_models (settings_type s) = Some model /\
    covered model c (uuid (row s))
      (fst (create_spls_and_services_for_shared_settings service_models a d)).
Proof.
  unfold create_spls_and_services_for_shared_settings.
  rewrite ensure_all_error. intros Hok Hs Hc.
  rewrite <- (served_all _ Hok) in Hs.
  destruct (service_models (settings_type s)) as [model|] eqn:Em.
  - exists model. split; [reflexivity|]. now apply ensure_all_covers.
  - exfalso. clear Hc. revert Hs Hok.
    induction (select_shared a (dir_settings d)) as [|x sel IH]; simpl;
      [contradiction|].
    destruct (service_models (settings_type x)) eqn:Ex; [|contradiction].
    intros [->|Hin] Hok; [congruence | now apply IH].
Qed.

(** X15: the task is idempotent: run again on the directory it produced,
    it creates nothing and ends the same way (normally, or with the same
    KeyError). *)
Theorem shared_settings_idempotent (a : UuidsArg) (d : Directory) :
  create_spls_and_services_for_shared_settings service_models a
    (fst (create_spls_and_services_for_shared_settings service_models a d)) =
  create_spls_and_services_for_shared_settings service_models a d.
Proof.
  unfold create_spls_and_services_for_shared_settings.
  destruct (ensure_all_grows (select_shared a (dir_settings d)) d)
    as [Hset [Hcust _]].
  rewrite Hset. rewrite ensure_all_identity.
  - rewrite <- ensure_all_error with (d := d).
    now destruct (ensure_all service_models (select_shared a (dir_settings d)) d).
  - intros s model c Hs Hm Hc. rewrite Hcust in Hc. now apply ensure_all_covers.
Qed.

Lemma no_duplicates_refl (d : Directory) : no_duplicates_added d d.
Proof. split; intros; now left. Qed.

Lemma no_duplicates_trans (d1 d2 d3 : Directory) :
  no_duplicates_added d1 d2 -> no_duplicates_added d2 d3 ->
  no_duplicates_added d1 d3.
Proof.
  intros [Hs Hl] [Hs' Hl']. split; intros a b c.
  - specialize (Hs a b c). specialize (Hs' a b c). unfold steady in *. lia.
  - specialize (Hl a b c). specialize (Hl' a b c). unfold steady in *. lia.
Qed.

Lemma fold_left_no_duplicates {A} (f : Directory -> A -> Directory) (l : list A) :
  (forall d x, no_duplicates_added d (f d x)) ->
  forall d, no_duplicates_added d (fold_left f l d).
Proof.
  intros Hf. induction l as [|x l IH]; intros d; simpl.
  - apply no_duplicates_refl.
  - apply no_duplicates_trans with (f d x); [apply Hf | apply IH].
Qed.

Lemma existsb_false_filter {A} (f : A -> bool) (l : list A) :
  existsb f l = false -> filter f l = [].
Proof.
  intros H. apply filter_nil. intros x Hx.
  destruct (f x) eqn:E; [|reflexivity].
  assert (existsb f l = true) by (apply existsb_exists; now exists x). congruence.
Qed.

Lemma link_matches_fields (model project : string) (service : nat) (t : Through) :
  link_matches model project service t = true ->
  thr_model t = model /\ thr_project t = project /\ thr_service t = service.
Proof.
  unfold link_matches. intros H.
  apply andb_prop in H. destruct H as [H H3].
  apply andb_prop in H. destruct H as [H1 H2].
  repeat split; [now apply String.eqb_eq | now apply String.eqb_eq |
                 now apply Nat.eqb_eq].
Qed.

Lemma ensure_link_no_duplicates (model : string) (service : Service)
    (d : Directory) (p : Project) :
  no_duplicates_added d (ensure_link model service d p).
Proof.
  unfold ensure_link.
  destruct (existsb (link_matches model (project_uuid p) (srv_id service))
              (dir_links d)) eqn:E; [apply no_duplicates_refl|].
  split; intros a b c; [now left|].
  unfold steady, link_count. simpl. rewrite filter_app, length_app. simpl.
  destruct (link_matches a b c
              (mkThrough model (project_uuid p) (srv_id service))) eqn:Em.
  - right. apply link_matches_fields in Em. simpl in Em.
    destruct Em as [<- [<- <-]].
    rewrite (existsb_false_filter _ _ E). now split.
  - left. simpl. lia.
Qed.

Lemma ensure_service_no_duplicates (model : string) (settings : SettingsRow)
    (d : Directory) (customer : string) :
  no_duplicates_added d (ensure_service model settings d customer).
Proof.
  unfold ensure_service.
  destruct (filter (service_matches model customer (uuid (row settings)))
              (dir_services d)) as [|s0 rest] eqn:Hf.
  - eapply no_duplicates_trans;
      [|apply fold_left_no_duplicates; intros; apply ensure_link_no_duplicates].
    split; intros a b c; [|now left].
    unfold steady, service_count. simpl. rewrite filter_app, length_app. simpl.
    destruct (service_matches a b c
                (mkService (next_id model (dir_services d)) model customer
                           (uuid (row settings)) (name (row settings)) true))
      eqn:Em.
    + right. apply service_matches_fields in Em. simpl in Em.
      destruct Em as [<- [<- <-]]. rewrite Hf. now split.
    + left. simpl. lia.
  - apply fold_left_no_duplicates. intros. apply ensure_link_no_duplicates.
Qed.

Lemma ensure_all_no_duplicates (sel : list SettingsRow) (d : Directory) :
  no_duplicates_added d (fst (ensure_all service_models sel d)).
Proof.
  revert d. induction sel as [|s sel IH]; intros d; simpl.
  - apply no_duplicates_refl.
  - destruct (service_models (settings_type s)) as [model|];
      [|apply no_duplicates_refl].
    eapply no_duplicates_trans; [|apply IH].
    apply fold_left_no_duplicates. intros. apply ensure_service_no_duplicates.
Qed.

(** X16: the task never adds a duplicate: for every model, customer and
    settings the number of services stays as it was or goes from none to
    exactly one, and likewise the number of links for every model, project
    and service. *)
Theorem shared_settings_add_no_duplicates (a : UuidsArg) (d : Directory) :
  no_duplicates_added d
    (fst (create_spls_and_services_for_shared_settings service_models a d)).
Proof.
  unfold create_spls_and_services_for_shared_settings.
  apply ensure_all_no_duplicates.
Qed.

Lemma first_unregistered_none (sel : list SettingsRow) :
  first_unregistered service_models sel = None <->
  forall s, In s sel -> service_models (settings_type s) <> None.
Proof.
  induction sel as [|x sel IH]; simpl.
  - split; [intros _ s [] | reflexivity].
  - destruct (service_models (settings_type x)) as [m|] eqn:Ex.
    + rewrite IH. split.
      * intros H s [<-|Hs]; [congruence | now apply H].
      * intros H s Hs. apply H. now right.
    + split; [discriminate|]. intros H. exfalso.
      now apply (H x (or_introl eq_refl)).
Qed.

Lemma first_unregistered_some (sel : list SettingsRow) (k : string) :
  first_unregistered service_models sel = Some k ->
  service_models k = None /\ exists s, In s sel /\ settings_type s = k.
Proof.
  induction sel as [|x sel IH]; simpl; [discriminate|].
  destruct (service_models (settings_type x)) as [m|] eqn:Ex.
  - intros H. destruct (IH H) as [Hk [s [Hs Ht]]].
    split; [exact Hk|]. exists s. split; [now right | exact Ht].
  - intros H. injection H as <-. split; [exact Ex|].
    exists x. split; [now left | reflexivity].
Qed.

(** X17: the task ends with a KeyError exactly when some selected settings
    row has a type with no registered service model, and the key is such a
    type; the rows selected before the first such row have been served all
    the same -- every customer is covered for them. *)
Theorem shared_settings_key_error (a : UuidsArg) (d : Directory) :
  (snd (create_spls_and_services_for_shared_settings service_models a d) = None <->
   forall s, In s (select_shared a (dir_settings d)) ->
             service_models (settings_type s) <> None) /\
  (forall k,
      snd (create_spls_and_services_for_shared_settings service_models a d) = Some k ->
      service_models k = None /\
      exists s, In s (select_shared a (dir_settings d)) /\ settings_type s = k) /\
  (forall s model c,
      In s (served service_models (select_shared a (dir_settings d))) ->
      service_models (settings_type s) = Some model ->
      In c (dir_customers d) ->
      covered model c (uuid (row s))
        (fst (create_spls_and_services_for_shared_settings service_models a d))).
Proof.
  unfold create_spls_and_services_for_shared_settings. rewrite ensure_all_error.
  split; [apply first_unregistered_none|].
  split; [intros k; apply first_unregistered_some|].
  intros s model c. apply ensure_all_covers.
Qed.

End SharedSettingsFacts.

Lemma shared_settings_cover_every_customer_witness :
  exists model,
    registry "OpenStack" = Some model /\
    covered model "c2" "s1"
      (fst (create_spls_and_services_for_shared_settings registry
              (OneUuid "s1") sample_directory)).
Proof.
  apply (shared_settings_cover_every_customer registry (OneUuid "s1")
           sample_directory
           (mkSettingsRow (mkEntity "s1" "Shared cloud" IN_SYNC "") true "OpenStack")
           "c2").
  - reflexivity.
  - simpl. now left.
  - simpl. tauto.
Defined.

Lemma shared_settings_key_error_witness :
  snd (create_spls_and_services_for_shared_settings registry NoUuids
         sample_directory) = Some "Oracle" /\
  covered "openstack.OpenStackService" "c1" "s1"
    (fst (create_spls_and_services_for_shared_settings registry NoUuids
            sample_directory)).
Proof.
  destruct (shared_settings_key_error registry NoUuids sample_directory)
    as [_ [_ Hserved]].
  split; [reflexivity|].
  apply (Hserved
           (mkSettingsRow (mkEntity "s1" "Shared cloud" IN_SYNC "") true "OpenStack")
           "openstack.OpenStackService" "c1").
  - simpl. now left.
  - reflexivity.
  - simpl. now left.
Defined.

(** ** The two sweeps side by side *)

Lemma filter_twice {A} (f : A -> bool) (l : list A) :
  filter f (filter f l) = filter f l.
Proof.
  induction l as [|x l IH]; simpl; [reflexivity|].
  destruct (f x) eqn:E; simpl; [now rewrite E, IH | exact IH].
Qed.

Lemma swept_keeps_erred (a : UuidsArg) (t : list Entity) :
  filter (fun s => state_eqb (state s) ERRED) (map (swept a) t) =
  filter (fun s => state_eqb (state s) ERRED) t /\
  map (fun s => recovering_job (uuid s))
      (filter (fun s => state_eqb (state s) ERRED) (map (swept a) t)) =
  map (fun s => recovering_job (uuid s))
      (filter (fun s => state_eqb (state s) ERRED) t).
Proof.
  assert (H : filter (fun s => state_eqb (state s) ERRED) (map (swept a) t) =
              filter (fun s => state_eqb (state s) ERRED) t).
  { induction t as [|r t IH]; simpl; [reflexivity|]. rewrite IH.
    unfold swept at 1 2.
    destruct (selects a IN_SYNC r && state_eqb (state r) IN_SYNC) eqn:E;
      [|reflexivity].
    apply andb_prop in E. destruct E as [_ E]. apply state_eqb_eq in E.
    simpl. now rewrite E. }
  split; [exact H | now rewrite H].
Qed.

(** X18: the two periodic sweeps do not get in each other's way.  With
    distinct uuids, running the recovery sweep after the sync sweep queues
    the same probe jobs it would have queued before it, and in either
    order the settings table ends the same. *)
Theorem periodic_sweeps_independent (w : World) :
  NoDup (map uuid (service_settings w)) ->
  queue (exec (recover_erred_service_settings NoUuids)
           (exec (sync_service_settings NoUuids) w)) =
  queue (exec (sync_service_settings NoUuids) w) ++
  map (fun s => recovering_job (uuid s))
      (filter (fun s => state_eqb (state s) ERRED) (service_settings w)) /\
  service_settings (exec (recover_erred_service_settings NoUuids)
                      (exec (sync_service_settings NoUuids) w)) =
  service_settings (exec (sync_service_settings NoUuids)
                      (exec (recover_erred_service_settings NoUuids) w)).
Proof.
  intros Hnd.
  destruct (sync_service_settings_effect NoUuids w) as [_ [_ Ht]].
  rewrite (sweep_rows_swept NoUuids _ Hnd) in Ht.
  rewrite (recover_sweep_run NoUuids (exec (sync_service_settings NoUuids) w)).
  cbn [queue service_settings with_queue with_log].
  rewrite Ht. split.
  - f_equal. unfold select. simpl.
    rewrite filter_twice. apply swept_keeps_erred.
  - destruct (sync_service_settings_effect NoUuids
                (exec (recover_erred_service_settings NoUuids) w)) as [_ [_ Ht']].
    rewrite Ht'. rewrite (recover_sweep_run NoUuids w).
    cbn [service_settings with_queue with_log].
    now rewrite (sweep_rows_swept NoUuids _ Hnd).
Qed.

Lemma mem_string_in (u : string) (us : list string) :
  mem_string u us = true <-> In u us.
Proof.
  unfold mem_string. rewrite existsb_exists. split.
  - intros [x [Hx He]]. apply String.eqb_eq in He. now subst.
  - intros H. exists u. split; [exact H | apply String.eqb_refl].
Qed.

Lemma mem_string_same_set (us us' : list string) (u : string) :
  (forall x, In x us <-> In x us') -> mem_string u us = mem_string u us'.
Proof.
  intros H. destruct (mem_string u us) eqn:E1; destruct (mem_string u us') eqn:E2;
    try reflexivity.
  - apply mem_string_in in E1. apply H in E1. apply mem_string_in in E1. congruence.
  - apply mem_string_in in E2. apply H in E2. apply mem_string_in in E2. congruence.
Qed.

(** X19: a sweep given a list of uuids depends only on which uuids are in
    the list: their order and repetitions change nothing -- a uuid named
    twice is still swept once. *)
Theorem sweeps_depend_on_uuid_set (us us' : list string) (w : World) :
  us <> [] -> us' <> [] ->
  (forall u, In u us <-> In u us') ->
  sync_service_settings (ManyUuids us) w = sync_service_settings (ManyUuids us') w /\
  recover_erred_service_settings (ManyUuids us) w =
  recover_erred_service_settings (ManyUuids us') w.
Proof.
  intros Hne Hne' Hsame.
  assert (Hsel : forall d t,
             select (ManyUuids us) d t = select (ManyUuids us') d t).
  { intros d t. unfold select. simpl.
    destruct us as [|u0 us0]; [contradiction|].
    destruct us' as [|u0' us0']; [contradiction|].
    apply filter_ext. intros r. now apply mem_string_same_set. }
  unfold sync_service_settings, recover_erred_service_settings, bind, get_world.
  now rewrite !Hsel.
Qed.

Lemma sweeps_depend_on_uuid_set_witness :
  sync_service_settings (ManyUuids ["e1"; "e3"; "e1"]) three_rows_world =
  sync_service_settings (ManyUuids ["e3"; "e1"]) three_rows_world.
Proof.
  apply (sweeps_depend_on_uuid_set ["e1"; "e3"; "e1"] ["e3"; "e1"] three_rows_world).
  - discriminate.
  - discriminate.
  - intros u. simpl. tauto.
Defined.

(** ** The fan-out of key pushes *)

Section FanOutFacts.
Variable project_keys : ServiceProjectLink -> list string.

Lemma delay_keys_run (l : string) (keys : list string) (w : World) :
  for_each keys (fun key => delay (t_push_ssh_public_key key l)) w =
  (Ok tt,
   with_queue
     (queue w ++ map (fun key => mkJob (t_push_ssh_public_key key l) None None 0) keys)
     (with_log
        (log w ++
         map (fun key => EvSubmit (mkJob (t_push_ssh_public_key key l) None None 0))
             keys) w)).
Proof.
  revert w. induction keys as [|k keys IH]; intros w.
  - destruct w. simpl. unfold ret, with_queue, with_log. simpl.
    now rewrite !app_nil_r.
  - rewrite for_each_cons. unfold delay at 1, apply_async at 1. rewrite IH.
    unfold with_queue, with_log. simpl. now rewrite <- !app_assoc.
Qed.

Lemma submissions_are_no_calls (f : string -> Job) (keys : list string) :
  filter is_backend_call (map (fun key => EvSubmit (f key)) keys) = [].
Proof.
  apply filter_nil. intros ev Hev. apply in_map_iff in Hev.
  destruct Hev as [key [<- _]]. reflexivity.
Qed.

Lemma push_keys_of_link_keeps (link : ServiceProjectLink) (w : World) :
  fst (push_keys_of_link project_keys link w) = Ok tt /\
  queue (snd (push_keys_of_link project_keys link w)) =
  queue w ++
  map (fun key => mkJob (t_push_ssh_public_key key (link_key link)) None None 0)
      (project_keys link) /\
  tables_of (snd (push_keys_of_link project_keys link w)) = tables_of w /\
  backend_calls (log (snd (push_keys_of_link project_keys link w))) =
  backend_calls (log w).
Proof.
  unfold push_keys_of_link. destruct (project_keys link) as [|k keys] eqn:Ek.
  - simpl. rewrite app_nil_r. repeat split. log_filter.
  - rewrite delay_keys_run. cbn [fst snd]. repeat split.
    unfold backend_calls. cbn [log with_queue with_log].
    rewrite filter_app.
    rewrite (submissions_are_no_calls
               (fun key => mkJob (t_push_ssh_public_key key (link_key link))
                                 None None 0)).
    now rewrite app_nil_r.
Qed.

(** X20: the fan-out queues one push job for every key of every link
    string that resolves, in order; a string that resolves to nothing is
    passed over; and it never raises, changes no table and calls no
    adapter itself. *)
Theorem fan_out_queues_one_job_per_key (links : list string) (w : World) :
  result (push_ssh_public_keys project_keys links) w = Ok PyNone /\
  queue (exec (push_ssh_public_keys project_keys links) w) =
  queue w ++ flat_map (fan_out_jobs project_keys w) links /\
  tables_of (exec (push_ssh_public_keys project_keys links) w) = tables_of w /\
  backend_calls (log (exec (push_ssh_public_keys project_keys links) w)) =
  backend_calls (log w).
Proof.
  unfold result, exec, push_ssh_public_keys.
  set (body := fun s : string =>
                 w0 <- get_world ;;
                 match lookup link_key s (service_project_links w0) with
                 | Some link => push_keys_of_link project_keys link
                 | None => ret tt
                 end).
  unfold bind.
  assert (Hloop : forall ls w0,
             tables_of w0 = tables_of w ->
             fst (for_each ls body w0) = Ok tt /\
             queue (snd (for_each ls body w0)) =
             queue w0 ++ flat_map (fan_out_jobs project_keys w) ls /\
             tables_of (snd (for_each ls body w0)) = tables_of w /\
             backend_calls (log (snd (for_each ls body w0))) =
             backend_calls (log w0)).
  { induction ls as [|s ls IH]; intros w0 Ht.
    - simpl. rewrite app_nil_r. now repeat split.
    - rewrite for_each_cons.
      assert (Hlinks : service_project_links w0 = service_project_links w).
      { unfold tables_of in Ht. now injection Ht. }
      unfold body at 1 3 5 7. unfold bind, get_world. rewrite Hlinks.
      simpl flat_map. unfold fan_out_jobs at 1.
      destruct (lookup link_key s (service_project_links w)) as [link|].
      + destruct (push_keys_of_link_keeps link w0) as [Hok [Hq [Htab Hb]]].
        destruct (push_keys_of_link project_keys link w0) as [[[]|exc] w1];
          cbn [fst snd] in *; [|discriminate].
        destruct (IH w1 (eq_trans Htab Ht)) as [Hok' [Hq' [Htab' Hb']]].
        rewrite Hq', Hq, Hb', Hb, <- app_assoc. now repeat split.
      + simpl. now apply IH. }
  destruct (Hloop links w eq_refl) as [Hok [Hq [Htab Hb]]].
  destruct (for_each links body w) as [[[]|exc] w1]; cbn [fst snd] in *;
    [|discriminate].
  now repeat split.
Qed.

End FanOutFacts.

(** ** The further properties at concrete inputs *)

Lemma per_link_recovery_settles_witness :
  tables_of
    (exec (recover_erred_service (fun _ => backend_ok) "l1" false)
       (exec (recover_erred_service (fun _ => backend_ok) "l1" false)
          (world_with ERRED ERRED ""))) =
  tables_of
    (exec (recover_erred_service (fun _ => backend_ok) "l1" false)
       (world_with ERRED ERRED "")).
Proof.
  apply (per_link_recovery_settles (fun _ => backend_ok)
           (world_with ERRED ERRED "") "l1" false
           (mkLink (mkEntity "l1" "L1" ERRED "") "e1")
           (mkEntity "e1" "E1" ERRED "")); reflexivity.
Defined.

Lemma per_link_recovery_nothing_to_do_witness :
  recover_erred_service (fun _ => backend_failing) "l9" false
    (world_with ERRED ERRED "") =
  (Ok PyNone,
   with_log [EvLog WARNING "Missing service project link %s." ["l9"]]
     (world_with ERRED ERRED "")).
Proof.
  apply (per_link_recovery_nothing_to_do (fun _ => backend_failing) "l9" false
           (world_with ERRED ERRED "")).
  reflexivity.
Defined.

Lemma push_and_add_wait_witness :
  result (push_ssh_public_key (fun _ => backend_ok) "k1" "l1")
    (world_with IN_SYNC CREATING "") = Raise Retry /\
  result (add_user (fun _ => backend_ok) "u1" "l1")
    (world_with IN_SYNC CREATING "") = Raise Retry.
Proof.
  destruct (push_and_add_wait (fun _ => backend_ok) "k1" "l1"
              (world_with IN_SYNC CREATING "")) as [_ [Hpush _]].
  destruct (push_and_add_wait (fun _ => backend_ok) "u1" "l1"
              (world_with IN_SYNC CREATING "")) as [_ [_ [_ Hadd]]].
  split; [apply Hpush | apply Hadd]; reflexivity.
Defined.

Lemma periodic_sweeps_independent_witness :
  queue (exec (recover_erred_service_settings NoUuids)
           (exec (sync_service_settings NoUuids) three_rows_world)) =
  [syncing_job "e1"; syncing_job "e2"; recovering_job "e3"].
Proof.
  apply (periodic_sweeps_independent three_rows_world).
  repeat constructor; simpl; intuition discriminate.
Defined.
